(** * Agent.tsx: the interview call component as an event-driven state machine

    The component of [src/components/Agent.tsx] keeps four pieces of React
    state, subscribes six listeners to the voice SDK, and runs one effect
    after every render in which [messages] or [callStatus] changed.  The
    embedding below keeps that shape:

    - every handler is the list of the commands it issues, in program order
      (state setters and calls to collaborators alike);
    - a [step] delivers one event: the handler's commands are applied to the
      state as one batch, and the dependency effect of lines 96-128 runs on
      the new state when one of its dependencies changed;
    - the two [await]s split their functions in two: the part before the
      [await] issues the call, the part after it runs when the promise
      settles, which is an event of its own. *)

From Stdlib Require Import String Ascii List Bool Arith Lia.
Import ListNotations.
Open Scope string_scope.

(** ** JavaScript values used by the component *)

(** [!s] on a string is true exactly for the empty string. *)
Definition truthy (s : string) : bool := negb (s =? "").

(** An optional prop or environment variable: [undefined] is falsy. *)
Definition truthy_opt (o : option string) : bool :=
  match o with
  | Some s => truthy s
  | None => false
  end.

(** [`${x}`] for an optional string. *)
Definition interpolate (o : option string) : string :=
  match o with
  | Some s => s
  | None => "undefined"
  end.

(** The line feed of ["\n"]. *)
Definition LF : string := String (ascii_of_nat 10) EmptyString.

(** [Array.prototype.join]: the empty string for an empty array, otherwise
    the first element followed by separator and element for each further
    one. *)
Definition join (sep : string) (l : list string) : string :=
  match l with
  | [] => ""
  | x :: xs => fold_left (fun acc y => acc ++ sep ++ y) xs x
  end.

(** ** Data model (lines 12-31) *)

Inductive CallStatus : Type :=
| INACTIVE
| CONNECTING
| ACTIVE
| FINISHED.

Definition CallStatus_eqb (a b : CallStatus) : bool :=
  match a, b with
  | INACTIVE, INACTIVE | CONNECTING, CONNECTING
  | ACTIVE, ACTIVE | FINISHED, FINISHED => true
  | _, _ => false
  end.

Record SavedMessage : Type := mkSavedMessage {
  role : string;
  content : string
}.

Inductive AgentType : Type :=
| generate
| normal.

Record AgentProps : Type := mkAgentProps {
  userName : string;
  userId : string;
  interviewId : option string;
  feedbackId : option string;
  type : AgentType;
  questions : option (list string)
}.

(** The payload of a ["message"] event ([message: any], line 57): the four
    fields the handler reads.  [transcriptType] is absent on messages that
    are not transcripts. *)
Record VapiMessage : Type := mkVapiMessage {
  m_type : string;
  m_transcriptType : option string;
  m_role : string;
  m_transcript : string
}.

(** A thrown or reported error: [error?.message] is all the code reads. *)
Record JsError : Type := mkJsError {
  message : option string
}.

(** Modelled from the spec: the [interviewer] constant imported from
    ["@/constants"] is not among the sources.  The glossary describes it as
    an inline configuration (prompt, voice, model); the component only tests
    it for truthiness and hands it to [vapi.start]. *)
Record CreateAssistantDTO : Type := mkAssistant {
  prompt : string;
  voice : string;
  model : string
}.

(** What the component reads from outside its props. *)
Record Env : Type := mkEnv {
  NEXT_PUBLIC_VAPI_WORKFLOW_ID : option string;
  interviewer : option CreateAssistantDTO
}.

(** Argument and result of [createFeedback] (lines 107-112). *)
Record CreateFeedbackParams : Type := mkFeedbackParams {
  fb_interviewId : string;
  fb_userId : string;
  fb_transcript : list SavedMessage;
  fb_feedbackId : option string
}.

Record FeedbackResult : Type := mkFeedbackResult {
  success : bool;
  res_feedbackId : option string
}.

(** The two call shapes of [vapi.start] (lines 145-159 and 186-190). *)
Inductive StartCall : Type :=
| StartWorkflow (workflowId username userid : string)
| StartAssistant (assistant : CreateAssistantDTO) (questionsVar : string).

(** ** Commands issued by the component *)

Inductive Action : Type :=
| SetCallStatus (s : CallStatus)
| AppendMessage (m : SavedMessage)   (* setMessages(prev => [...prev, m]) *)
| SetIsSpeaking (b : bool)
| SetLastMessage (s : string)
| VapiStart (c : StartCall)
| VapiStop
| Alert (text : string)
| RouterPush (path : string)
| ConsoleLog (e : JsError)
| ConsoleError (text : string)
| CreateFeedback (p : CreateFeedbackParams).

(** ** React state (lines 43-46) *)

Record State : Type := mkState {
  callStatus : CallStatus;
  messages : list SavedMessage;
  isSpeaking : bool;
  lastMessage : string
}.

Definition initialState : State :=
  {| callStatus := INACTIVE; messages := []; isSpeaking := false;
     lastMessage := "" |}.

Definition apply_action (st : State) (a : Action) : State :=
  match a with
  | SetCallStatus s =>
      {| callStatus := s; messages := messages st;
         isSpeaking := isSpeaking st; lastMessage := lastMessage st |}
  | AppendMessage m =>
      {| callStatus := callStatus st; messages := messages st ++ [m];
         isSpeaking := isSpeaking st; lastMessage := lastMessage st |}
  | SetIsSpeaking b =>
      {| callStatus := callStatus st; messages := messages st;
         isSpeaking := b; lastMessage := lastMessage st |}
  | SetLastMessage s =>
      {| callStatus := callStatus st; messages := messages st;
         isSpeaking := isSpeaking st; lastMessage := s |}
  | _ => st
  end.

Definition apply_actions (st : State) (acts : list Action) : State :=
  fold_left apply_action acts st.

(** ** The six SDK listeners (lines 49-77) *)

Definition onCallStart : list Action := [SetCallStatus ACTIVE].

Definition onCallEnd : list Action := [SetCallStatus FINISHED].

Definition is_final_transcript (m : VapiMessage) : bool :=
  (m_type m =? "transcript") &&
  match m_transcriptType m with
  | Some t => t =? "final"
  | None => false
  end.

Definition newMessage (m : VapiMessage) : SavedMessage :=
  {| role := m_role m; content := m_transcript m |}.

Definition onMessage (m : VapiMessage) : list Action :=
  if is_final_transcript m then [AppendMessage (newMessage m)] else [].

Definition onSpeechStart : list Action := [SetIsSpeaking true].

Definition onSpeechEnd : list Action := [SetIsSpeaking false].

Definition onError (e : JsError) : list Action := [ConsoleLog e].

(** ** The dependency effect (lines 96-128) *)

Definition landing : string := "/".

Definition feedbackRoute (props : AgentProps) : string :=
  "/interview/" ++ interpolate (interviewId props) ++ "/feedback".

(** [handleGenerateFeedback] up to its [await] (lines 101-112). *)
Definition handleGenerateFeedback (props : AgentProps)
    (msgs : list SavedMessage) : list Action :=
  match interviewId props with
  | Some iid =>
      if negb (truthy iid) || negb (truthy (userId props)) then
        [ConsoleError "Missing interviewId or userId for feedback generation.";
         RouterPush landing]
      else
        [CreateFeedback {| fb_interviewId := iid;
                           fb_userId := userId props;
                           fb_transcript := msgs;
                           fb_feedbackId := feedbackId props |}]
  | None =>
      [ConsoleError "Missing interviewId or userId for feedback generation.";
       RouterPush landing]
  end.

(** [handleGenerateFeedback] after its [await] (lines 114-118). *)
Definition handleGenerateFeedback_resume (props : AgentProps)
    (r : FeedbackResult) : list Action :=
  if success r && truthy_opt (res_feedbackId r) then
    [RouterPush (feedbackRoute props)]
  else
    [RouterPush landing].

(** [messages[messages.length - 1]]; the default is never read because the
    access sits under [messages.length > 0]. *)
Definition lastOf (msgs : list SavedMessage) : SavedMessage :=
  nth (length msgs - 1) msgs {| role := ""; content := "" |}.

(** The effect body, run with the values of the render it belongs to. *)
Definition completionEffect (props : AgentProps) (st : State) : list Action :=
  (if (0 <? length (messages st))%nat
   then [SetLastMessage (content (lastOf (messages st)))]
   else [])
  ++
  (if CallStatus_eqb (callStatus st) FINISHED then
     match type props with
     | generate => [RouterPush landing]
     | normal => handleGenerateFeedback props (messages st)
     end
   else []).

(** The dependency array [[messages, callStatus, feedbackId, interviewId,
    router, type, userId]]: the props and the router are fixed for a mounted
    instance, [callStatus] is compared by value, and [messages] by identity.
    The only update of [messages] builds a new array one element longer, so
    the identity changed exactly when the length did. *)
Definition depsChanged (old new : State) : bool :=
  negb (CallStatus_eqb (callStatus old) (callStatus new))
  || negb (length (messages old) =? length (messages new))%nat.

(** ** handleCall and handleDisconnect (lines 130-203) *)

Definition formattedQuestions (qs : option (list string)) : string :=
  match qs with
  | Some l => join LF (map (fun question => "- " ++ question) l)
  | None => ""
  end.

Definition noWorkflowText : string :=
  "Vapi Workflow ID must be provided to start the call for 'generate' type.".

Definition noAssistantText : string :=
  "Assistant (interviewer) must be provided to start the call.".

(** [handleCall] up to its [await] or its early [return]. *)
Definition handleCall (env : Env) (props : AgentProps) : list Action :=
  SetCallStatus CONNECTING ::
  match type props with
  | generate =>
      match NEXT_PUBLIC_VAPI_WORKFLOW_ID env with
      | Some workflowIdToUse =>
          if truthy workflowIdToUse then
            [VapiStart (StartWorkflow workflowIdToUse (userName props)
                                      (userId props))]
          else [Alert noWorkflowText; SetCallStatus INACTIVE]
      | None => [Alert noWorkflowText; SetCallStatus INACTIVE]
      end
  | normal =>
      match interviewer env with
      | None => [Alert noAssistantText; SetCallStatus INACTIVE]
      | Some a =>
          [VapiStart (StartAssistant a (formattedQuestions (questions props)))]
      end
  end.

(** [error?.message || "Failed to start interview."] *)
Definition errorText (e : JsError) : string :=
  match message e with
  | Some m => if truthy m then m else "Failed to start interview."
  | None => "Failed to start interview."
  end.

(** The two [catch] blocks (lines 162-168 and 191-197). *)
Definition handleCall_catch (props : AgentProps) (e : JsError) : list Action :=
  match type props with
  | generate =>
      [Alert ("Something went wrong: " ++ errorText e);
       SetCallStatus INACTIVE]
  | normal =>
      [Alert ("Something went wrong: " ++ errorText e);
       SetCallStatus INACTIVE]
  end.

Definition handleDisconnect : list Action := [SetCallStatus FINISHED; VapiStop].

(** ** The mounted instance and its events *)

(** The React state together with the promises the component is awaiting:
    [vapi.start] calls and [createFeedback] calls that have not settled. *)
Record World : Type := mkWorld {
  ui : State;
  awaitingStart : nat;
  awaitingFeedback : nat
}.

(** What can happen to a mounted instance: a click on one of the two
    buttons, one of the six SDK events, or the settling of an awaited
    promise. *)
Inductive Event : Type :=
| ClickCall
| ClickEnd
| EvCallStart
| EvCallEnd
| EvMessage (m : VapiMessage)
| EvSpeechStart
| EvSpeechEnd
| EvError (e : JsError)
| StartResolved
| StartRejected (e : JsError)
| FeedbackResolved (r : FeedbackResult)
| FeedbackRejected.

Definition isVapiStart (a : Action) : bool :=
  match a with VapiStart _ => true | _ => false end.

Definition isCreateFeedback (a : Action) : bool :=
  match a with CreateFeedback _ => true | _ => false end.

Definition isAlert (a : Action) : bool :=
  match a with Alert _ => true | _ => false end.

Definition isRouterPush (a : Action) : bool :=
  match a with RouterPush _ => true | _ => false end.

Definition isPushTo (target : string) (a : Action) : bool :=
  match a with RouterPush p => p =? target | _ => false end.

Definition isSetLastMessage (a : Action) : bool :=
  match a with SetLastMessage _ => true | _ => false end.

Definition count (p : Action -> bool) (tr : list Action) : nat :=
  length (filter p tr).

(** The code that runs for an event.  A continuation runs only for a promise
    that is being awaited; a resolved [vapi.start] and a rejected
    [createFeedback] have no code after them (the latter leaves
    [handleGenerateFeedback] by the exception). *)
Definition handlerOf (env : Env) (props : AgentProps) (w : World)
    (ev : Event) : list Action :=
  match ev with
  | ClickCall => handleCall env props
  | ClickEnd => handleDisconnect
  | EvCallStart => onCallStart
  | EvCallEnd => onCallEnd
  | EvMessage m => onMessage m
  | EvSpeechStart => onSpeechStart
  | EvSpeechEnd => onSpeechEnd
  | EvError e => onError e
  | StartResolved => []
  | StartRejected e =>
      if (0 <? awaitingStart w)%nat then handleCall_catch props e else []
  | FeedbackResolved r =>
      if (0 <? awaitingFeedback w)%nat
      then handleGenerateFeedback_resume props r else []
  | FeedbackRejected => []
  end.

Definition settlesStart (ev : Event) : bool :=
  match ev with StartResolved | StartRejected _ => true | _ => false end.

Definition settlesFeedback (ev : Event) : bool :=
  match ev with FeedbackResolved _ | FeedbackRejected => true | _ => false end.

(** One event: the handler's setters are applied as one batch, the effect
    runs on the resulting state when a dependency changed, and its own
    setter ([setLastMessage], not a dependency) is applied last. *)
Definition step (env : Env) (props : AgentProps) (w : World) (ev : Event)
    : World * list Action :=
  let acts := handlerOf env props w ev in
  let st1 := apply_actions (ui w) acts in
  let eff := if depsChanged (ui w) st1 then completionEffect props st1
             else [] in
  let out := (acts ++ eff)%list in
  ({| ui := apply_actions st1 eff;
      awaitingStart :=
        (if settlesStart ev then pred (awaitingStart w) else awaitingStart w)
        + count isVapiStart out;
      awaitingFeedback :=
        (if settlesFeedback ev then pred (awaitingFeedback w)
         else awaitingFeedback w)
        + count isCreateFeedback out |},
   out).

Fixpoint run (env : Env) (props : AgentProps) (w : World) (evs : list Event)
    : World * list Action :=
  match evs with
  | [] => (w, [])
  | ev :: rest =>
      let (w1, t1) := step env props w ev in
      let (w2, t2) := run env props w1 rest in
      (w2, (t1 ++ t2)%list)
  end.

(** The instance right after mounting. *)
Definition mounted : World :=
  {| ui := initialState; awaitingStart := 0; awaitingFeedback := 0 |}.

(** Which events the rendered page and the runtime can deliver in a state:
    the Call button is rendered unless the status is ACTIVE, the End button
    only then (lines 255-274); a promise settles only while awaited.  The SDK
    events are under the SDK's control. *)
Definition deliverable (w : World) (ev : Event) : bool :=
  match ev with
  | ClickCall => negb (CallStatus_eqb (callStatus (ui w)) ACTIVE)
  | ClickEnd => CallStatus_eqb (callStatus (ui w)) ACTIVE
  | StartResolved | StartRejected _ => (0 <? awaitingStart w)%nat
  | FeedbackResolved _ | FeedbackRejected => (0 <? awaitingFeedback w)%nat
  | _ => true
  end.

Fixpoint deliverableRun (env : Env) (props : AgentProps) (w : World)
    (evs : list Event) : bool :=
  match evs with
  | [] => true
  | ev :: rest =>
      deliverable w ev && deliverableRun env props (fst (step env props w ev)) rest
  end.

(** The transcript the final fragments of an event sequence amount to. *)
Definition finalFragments (evs : list Event) : list SavedMessage :=
  flat_map (fun ev =>
    match ev with
    | EvMessage m => if is_final_transcript m then [newMessage m] else []
    | _ => []
    end) evs.

(** The question block in the spec's words: every element prefixed with
    ["- "], the results joined with newlines. *)
Definition dashBlock (l : list string) : string :=
  String.concat LF (map (String.append "- ") l).

Definition isFinalEvent (ev : Event) : bool :=
  match ev with
  | EvMessage m => is_final_transcript m
  | _ => false
  end.

(** The payloads of the ["message"] events of a sequence, in arrival order. *)
Definition payloads (evs : list Event) : list VapiMessage :=
  flat_map (fun ev => match ev with EvMessage m => [m] | _ => [] end) evs.

(** Whether [handleCall] gets as far as [vapi.start]. *)
Definition startIssued (env : Env) (props : AgentProps) : bool :=
  match type props with
  | generate => truthy_opt (NEXT_PUBLIC_VAPI_WORKFLOW_ID env)
  | normal => match interviewer env with Some _ => true | None => false end
  end.

(** The condition under which the completion handler submits feedback. *)
Definition feedbackEligible (props : AgentProps) : bool :=
  match type props with
  | generate => false
  | normal => truthy_opt (interviewId props) && truthy (userId props)
  end.

(** Events after which a FINISHED status is still FINISHED. *)
Definition staysFinished (ev : Event) : bool :=
  match ev with
  | ClickCall | EvCallStart | StartRejected _ => false
  | _ => true
  end.

(** Events other than an unsuccessful answer of [createFeedback]: a
    rejection, [success: false], or no identifier. *)
Definition noFailedFeedback (ev : Event) : bool :=
  match ev with
  | FeedbackResolved r => success r && truthy_opt (res_feedbackId r)
  | FeedbackRejected => false
  | _ => true
  end.

(** [lastMessage] mirrors the newest transcript entry, and is still the
    initial empty string while there is none. *)
Definition lastMessageInSync (st : State) : Prop :=
  lastMessage st =
  match messages st with
  | [] => ""
  | _ :: _ => content (lastOf (messages st))
  end.

(** The status a handler leaves behind. *)
Definition statusAfter (env : Env) (props : AgentProps) (w : World)
    (ev : Event) : CallStatus :=
  match ev with
  | ClickCall => if startIssued env props then CONNECTING else INACTIVE
  | ClickEnd | EvCallEnd => FINISHED
  | EvCallStart => ACTIVE
  | StartRejected _ =>
      if (0 <? awaitingStart w)%nat then INACTIVE else callStatus (ui w)
  | _ => callStatus (ui w)
  end.

(** ** Sample inputs *)

Definition demoAssistant : CreateAssistantDTO :=
  mkAssistant "You are an interviewer" "sarah" "gpt-4".

Definition demoEnv : Env :=
  {| NEXT_PUBLIC_VAPI_WORKFLOW_ID := Some "wf-1";
     interviewer := Some demoAssistant |}.

Definition bareEnv : Env :=
  {| NEXT_PUBLIC_VAPI_WORKFLOW_ID := None; interviewer := None |}.

Definition normalProps : AgentProps :=
  {| userName := "Ann"; userId := "u1"; interviewId := Some "i1";
     feedbackId := None; type := normal; questions := Some ["a"; "b"] |}.

Definition generateProps : AgentProps :=
  {| userName := "Ann"; userId := "u1"; interviewId := None;
     feedbackId := None; type := generate; questions := None |}.

Definition fragment (r t : string) : Event :=
  EvMessage {| m_type := "transcript"; m_transcriptType := Some "final";
               m_role := r; m_transcript := t |}.

Definition feedbackOk : Event :=
  FeedbackResolved {| success := true; res_feedbackId := Some "f1" |}.

(** A call that was started and connected, before any transcript. *)
Definition connected : World :=
  fst (run demoEnv normalProps mounted [ClickCall; StartResolved; EvCallStart]).

(** A call that was started, connected and has one transcript entry. *)
Definition inCall : list Event :=
  [ClickCall; StartResolved; EvCallStart; fragment "assistant" "hello"].

(** ** The rendered page (lines 205-277) *)

(** The one button of the page.  The Call button carries whether its ping
    span gets the class ["hidden"] (the second argument of [cn], line 260)
    and its label; its [onClick] is [handleCall].  The End button's
    [onClick] is [handleDisconnect]. *)
Inductive ButtonView : Type :=
| CallButton (pingHidden : bool) (label : string)
| EndButton.

Record View : Type := mkView {
  speakAnimation : bool;            (* line 218 *)
  userCard : string;                (* line 233 *)
  transcriptLine : option string;   (* lines 238-252 *)
  button : ButtonView               (* lines 255-274 *)
}.

Definition render (props : AgentProps) (st : State) : View :=
  {| speakAnimation := isSpeaking st;
     userCard := userName props;
     transcriptLine :=
       if (0 <? length (messages st))%nat then Some (lastMessage st) else None;
     button :=
       if negb (CallStatus_eqb (callStatus st) ACTIVE) then
         CallButton
           (negb (CallStatus_eqb (callStatus st) CONNECTING))
           (if CallStatus_eqb (callStatus st) INACTIVE
               || CallStatus_eqb (callStatus st) FINISHED
            then "Call" else ". . .")
       else EndButton |}.

(** The event a click on the rendered button is. *)
Definition onClick (b : ButtonView) : Event :=
  match b with
  | CallButton _ _ => ClickCall
  | EndButton => ClickEnd
  end.

(** ** Counting events and commands *)

Definition isClickCall (ev : Event) : bool :=
  match ev with ClickCall => true | _ => false end.

Definition isClickEnd (ev : Event) : bool :=
  match ev with ClickEnd => true | _ => false end.

(** The two events whose handlers set the status to FINISHED. *)
Definition isCompletion (ev : Event) : bool :=
  match ev with EvCallEnd | ClickEnd => true | _ => false end.

Definition isSpeechEvent (ev : Event) : bool :=
  match ev with EvSpeechStart | EvSpeechEnd => true | _ => false end.

Definition isVapiStop (a : Action) : bool :=
  match a with VapiStop => true | _ => false end.

Definition isConsoleError (a : Action) : bool :=
  match a with ConsoleError _ => true | _ => false end.

(** ** Subscribing and unsubscribing (lines 79-93) *)

(** The six closures the mount effect creates. *)
Inductive Listener : Type :=
| L_onCallStart
| L_onCallEnd
| L_onMessage
| L_onSpeechStart
| L_onSpeechEnd
| L_onError.

(** A closure is a function object of its own for every run of the mount
    effect: [instance] tells the closures of different mounts apart. *)
Record ListenerRef : Type := mkListenerRef {
  instance : nat;
  fn : Listener
}.

Definition Listener_eqb (a b : Listener) : bool :=
  match a, b with
  | L_onCallStart, L_onCallStart | L_onCallEnd, L_onCallEnd
  | L_onMessage, L_onMessage | L_onSpeechStart, L_onSpeechStart
  | L_onSpeechEnd, L_onSpeechEnd | L_onError, L_onError => true
  | _, _ => false
  end.

Definition Subscription : Type := (string * ListenerRef)%type.

Definition Subscription_eqb (a b : Subscription) : bool :=
  (fst a =? fst b)
  && ((instance (snd a) =? instance (snd b))%nat
      && Listener_eqb (fn (snd a)) (fn (snd b))).

(** The [vapi.on] calls of the mount effect (lines 79-84), in order. *)
Definition subscriptions (k : nat) : list Subscription :=
  [("call-start", {| instance := k; fn := L_onCallStart |});
   ("call-end", {| instance := k; fn := L_onCallEnd |});
   ("message", {| instance := k; fn := L_onMessage |});
   ("speech-start", {| instance := k; fn := L_onSpeechStart |});
   ("speech-end", {| instance := k; fn := L_onSpeechEnd |});
   ("error", {| instance := k; fn := L_onError |})].

(** The [vapi.off] calls of its cleanup (lines 87-92), in order. *)
Definition unsubscriptions (k : nat) : list Subscription :=
  [("call-start", {| instance := k; fn := L_onCallStart |});
   ("call-end", {| instance := k; fn := L_onCallEnd |});
   ("message", {| instance := k; fn := L_onMessage |});
   ("speech-start", {| instance := k; fn := L_onSpeechStart |});
   ("speech-end", {| instance := k; fn := L_onSpeechEnd |});
   ("error", {| instance := k; fn := L_onError |})].

(** The SDK object is an event emitter: [on] adds a listener after the ones
    registered before, [off] removes the most recently added registration of
    the given function under the given event, if there is one. *)
Definition emitter_on (reg : list Subscription) (s : Subscription)
    : list Subscription :=
  (reg ++ [s])%list.

Fixpoint removeFirst (s : Subscription) (l : list Subscription)
    : list Subscription :=
  match l with
  | [] => []
  | x :: rest => if Subscription_eqb x s then rest else x :: removeFirst s rest
  end.

Definition emitter_off (reg : list Subscription) (s : Subscription)
    : list Subscription :=
  rev (removeFirst s (rev reg)).

(** The listeners an emitted event reaches, in calling order. *)
Definition listenersOf (name : string) (reg : list Subscription)
    : list ListenerRef :=
  map snd (filter (fun s => fst s =? name) reg).

Definition mountEffect (k : nat) (reg : list Subscription)
    : list Subscription :=
  fold_left emitter_on (subscriptions k) reg.

Definition mountCleanup (k : nat) (reg : list Subscription)
    : list Subscription :=
  fold_left emitter_off (unsubscriptions k) reg.

(** ** The second copy of the component (src/unnamed/part_000) *)

(** Its [handleGenerateFeedback] up to the [await] (lines 101-114 there):
    only the interview identifier is tested, the user identifier is passed
    on as it is ([userId!]). *)
Definition handleGenerateFeedback_copy (props : AgentProps)
    (msgs : list SavedMessage) : list Action :=
  match interviewId props with
  | Some iid =>
      if negb (truthy iid) then
        [ConsoleError "Interview ID is null, cannot generate feedback.";
         RouterPush landing]
      else
        [CreateFeedback {| fb_interviewId := iid;
                           fb_userId := userId props;
                           fb_transcript := msgs;
                           fb_feedbackId := feedbackId props |}]
  | None =>
      [ConsoleError "Interview ID is null, cannot generate feedback.";
       RouterPush landing]
  end.

(** Its effect body (lines 96-129 there). *)
Definition completionEffect_copy (props : AgentProps) (st : State)
    : list Action :=
  (if (0 <? length (messages st))%nat
   then [SetLastMessage (content (lastOf (messages st)))]
   else [])
  ++
  (if CallStatus_eqb (callStatus st) FINISHED then
     match type props with
     | generate => [RouterPush landing]
     | normal => handleGenerateFeedback_copy props (messages st)
     end
   else []).

(** ** Events delivered together *)

(** React renders once for all the state updates made before it gets to
    render.  The handlers of the events that reach the instance in one task
    run one after the other on the pending state; one render and one run of
    the effect follow the last of them.  [step] is the task of one event.
    [handle] is one handler without the render. *)
Definition handle (env : Env) (props : AgentProps) (w : World) (ev : Event)
    : World * list Action :=
  let acts := handlerOf env props w ev in
  ({| ui := apply_actions (ui w) acts;
      awaitingStart :=
        (if settlesStart ev then pred (awaitingStart w) else awaitingStart w)
        + count isVapiStart acts;
      awaitingFeedback :=
        (if settlesFeedback ev then pred (awaitingFeedback w)
         else awaitingFeedback w)
        + count isCreateFeedback acts |},
   acts).

Fixpoint handleAll (env : Env) (props : AgentProps) (w : World)
    (task : list Event) : World * list Action :=
  match task with
  | [] => (w, [])
  | ev :: rest =>
      let (w1, t1) := handle env props w ev in
      let (w2, t2) := handleAll env props w1 rest in
      (w2, (t1 ++ t2)%list)
  end.

(** The state of the render React commits after the handlers of a task,
    and on which the effect then runs. *)
Definition committedRender (env : Env) (props : AgentProps) (w : World)
    (task : list Event) : State :=
  ui (fst (handleAll env props w task)).

(** One task: its handlers, the render, and the effect when a dependency
    differs from the previous render. *)
Definition stepTask (env : Env) (props : AgentProps) (w : World)
    (task : list Event) : World * list Action :=
  let w1 := fst (handleAll env props w task) in
  let acts := snd (handleAll env props w task) in
  let eff := if depsChanged (ui w) (ui w1) then completionEffect props (ui w1)
             else [] in
  ({| ui := apply_actions (ui w1) eff;
      awaitingStart := awaitingStart w1 + count isVapiStart eff;
      awaitingFeedback := awaitingFeedback w1 + count isCreateFeedback eff |},
   (acts ++ eff)%list).

Fixpoint runTasks (env : Env) (props : AgentProps) (w : World)
    (tasks : list (list Event)) : World * list Action :=
  match tasks with
  | [] => (w, [])
  | task :: rest =>
      let (w1, t1) := stepTask env props w task in
      let (w2, t2) := runTasks env props w1 rest in
      (w2, (t1 ++ t2)%list)
  end.

(** * Basic facts about strings, setters and the effect *)

Lemma append_assoc (a b c : string) : (a ++ b) ++ c = a ++ (b ++ c).
Proof.
  induction a as [|ch a IH]; simpl; [reflexivity|].
  now rewrite IH.
Qed.

Lemma join_concat (sep : string) (l : list string) :
  join sep l = String.concat sep l.
Proof.
  destruct l as [|x xs]; [reflexivity|].
  unfold join. revert x.
  induction xs as [|y ys IH]; intros x; [reflexivity|].
  cbn [fold_left]. rewrite IH.
  destruct ys as [|z zs]; cbn [String.concat]; [reflexivity|].
  now rewrite !append_assoc.
Qed.

Lemma CallStatus_eqb_refl (s : CallStatus) : CallStatus_eqb s s = true.
Proof. now destruct s. Qed.

Lemma CallStatus_eqb_eq (a b : CallStatus) :
  CallStatus_eqb a b = true <-> a = b.
Proof. destruct a, b; simpl; split; congruence. Qed.

Lemma depsChanged_same (st : State) : depsChanged st st = false.
Proof.
  unfold depsChanged.
  now rewrite CallStatus_eqb_refl, Nat.eqb_refl.
Qed.

(** The effect also runs once on mount, where it has nothing to do. *)
Lemma completionEffect_on_mount (props : AgentProps) :
  completionEffect props initialState = [].
Proof. reflexivity. Qed.

Lemma apply_actions_app (st : State) (l1 l2 : list Action) :
  apply_actions st (l1 ++ l2) = apply_actions (apply_actions st l1) l2.
Proof. apply fold_left_app. Qed.

(** The feedback branch issues no setter at all. *)
Lemma handleGenerateFeedback_inert props msgs st :
  apply_actions st (handleGenerateFeedback props msgs) = st.
Proof.
  unfold handleGenerateFeedback.
  destruct (interviewId props) as [iid|]; [|reflexivity].
  now destruct (negb (truthy iid) || negb (truthy (userId props))).
Qed.

(** The effect sets nothing but [lastMessage]. *)
Lemma completionEffect_frame props st0 st :
  let st' := apply_actions st (completionEffect props st0) in
  callStatus st' = callStatus st /\
  messages st' = messages st /\
  isSpeaking st' = isSpeaking st.
Proof.
  unfold completionEffect. cbn zeta.
  rewrite apply_actions_app.
  set (st1 := apply_actions st _).
  assert (H1 : callStatus st1 = callStatus st /\
               messages st1 = messages st /\
               isSpeaking st1 = isSpeaking st).
  { subst st1. now destruct (0 <? length (messages st0))%nat. }
  destruct (CallStatus_eqb (callStatus st0) FINISHED); [|exact H1].
  destruct (type props); [exact H1|].
  now rewrite handleGenerateFeedback_inert.
Qed.

(** What the effect leaves in [lastMessage]. *)
Lemma completionEffect_lastMessage props st0 st :
  lastMessage (apply_actions st (completionEffect props st0)) =
  if (0 <? length (messages st0))%nat
  then content (lastOf (messages st0)) else lastMessage st.
Proof.
  unfold completionEffect. rewrite apply_actions_app.
  set (st1 := apply_actions st _).
  assert (H1 : lastMessage st1 =
               if (0 <? length (messages st0))%nat
               then content (lastOf (messages st0)) else lastMessage st).
  { subst st1. now destruct (0 <? length (messages st0))%nat. }
  destruct (CallStatus_eqb (callStatus st0) FINISHED); [|exact H1].
  destruct (type props); [exact H1|].
  now rewrite handleGenerateFeedback_inert.
Qed.

(** No handler touches [lastMessage]; each appends the final fragment of its
    event, if any, to the transcript. *)
Lemma handlerOf_messages env props w ev :
  messages (apply_actions (ui w) (handlerOf env props w ev)) =
  (messages (ui w) ++ finalFragments [ev])%list.
Proof.
  destruct ev; cbn [handlerOf finalFragments flat_map];
    rewrite ?app_nil_r;
    try reflexivity.
  - unfold handleCall.
    destruct (type props).
    + destruct (NEXT_PUBLIC_VAPI_WORKFLOW_ID env) as [wid|]; [|reflexivity].
      now destruct (truthy wid).
    + now destruct (interviewer env).
  - unfold onMessage.
    destruct (is_final_transcript m); cbn; now rewrite ?app_nil_r.
  - destruct (0 <? awaitingStart w)%nat; [|reflexivity].
    unfold handleCall_catch. now destruct (type props).
  - destruct (0 <? awaitingFeedback w)%nat; [|reflexivity].
    unfold handleGenerateFeedback_resume.
    now destruct (success r && truthy_opt (res_feedbackId r)).
Qed.

Lemma handlerOf_lastMessage env props w ev :
  lastMessage (apply_actions (ui w) (handlerOf env props w ev)) =
  lastMessage (ui w).
Proof.
  destruct ev; cbn [handlerOf]; try reflexivity.
  - unfold handleCall.
    destruct (type props).
    + destruct (NEXT_PUBLIC_VAPI_WORKFLOW_ID env) as [wid|]; [|reflexivity].
      now destruct (truthy wid).
    + now destruct (interviewer env).
  - unfold onMessage. now destruct (is_final_transcript m).
  - destruct (0 <? awaitingStart w)%nat; [|reflexivity].
    unfold handleCall_catch. now destruct (type props).
  - destruct (0 <? awaitingFeedback w)%nat; [|reflexivity].
    unfold handleGenerateFeedback_resume.
    now destruct (success r && truthy_opt (res_feedbackId r)).
Qed.

Lemma step_messages env props w ev :
  messages (ui (fst (step env props w ev))) =
  (messages (ui w) ++ finalFragments [ev])%list.
Proof.
  unfold step. cbn [fst ui].
  destruct (depsChanged _ _).
  - destruct (completionEffect_frame props
               (apply_actions (ui w) (handlerOf env props w ev))
               (apply_actions (ui w) (handlerOf env props w ev)))
      as (_ & Hm & _).
    rewrite Hm. apply handlerOf_messages.
  - apply handlerOf_messages.
Qed.

Lemma run_cons env props w ev evs :
  run env props w (ev :: evs) =
  (fst (run env props (fst (step env props w ev)) evs),
   (snd (step env props w ev) ++
    snd (run env props (fst (step env props w ev)) evs))%list).
Proof.
  cbn [run].
  destruct (step env props w ev) as [w1 t1]. cbn [fst snd].
  now destruct (run env props w1 evs) as [w2 t2].
Qed.

Lemma run_messages env props w evs :
  messages (ui (fst (run env props w evs))) =
  (messages (ui w) ++ finalFragments evs)%list.
Proof.
  revert w. induction evs as [|ev evs IH]; intros w.
  - cbn. now rewrite app_nil_r.
  - rewrite run_cons. cbn [fst].
    rewrite IH, step_messages.
    change (ev :: evs) with ([ev] ++ evs)%list.
    unfold finalFragments. rewrite flat_map_app.
    now rewrite app_assoc.
Qed.

(** * Status and trace of one step *)

(** Case analysis over everything a handler branches on. *)
Ltac handler_cases env props w :=
  unfold handleCall, handleCall_catch, handleGenerateFeedback_resume, onMessage;
  repeat match goal with
  | |- context [match type props with _ => _ end] =>
      destruct (type props)
  | |- context [match NEXT_PUBLIC_VAPI_WORKFLOW_ID env with _ => _ end] =>
      destruct (NEXT_PUBLIC_VAPI_WORKFLOW_ID env)
  | |- context [match interviewer env with _ => _ end] =>
      destruct (interviewer env)
  | |- context [if truthy ?s then _ else _] => destruct (truthy s)
  | |- context [if is_final_transcript ?m then _ else _] =>
      destruct (is_final_transcript m)
  | |- context [if (0 <? ?n)%nat then _ else _] => destruct (0 <? n)%nat
  | |- context [if success ?r && ?b then _ else _] => destruct (success r && b)
  end.

Lemma step_trace env props w ev :
  snd (step env props w ev) =
  (handlerOf env props w ev ++
   (if depsChanged (ui w) (apply_actions (ui w) (handlerOf env props w ev))
    then completionEffect props (apply_actions (ui w) (handlerOf env props w ev))
    else []))%list.
Proof. reflexivity. Qed.

Lemma step_ui env props w ev :
  ui (fst (step env props w ev)) =
  apply_actions (apply_actions (ui w) (handlerOf env props w ev))
    (if depsChanged (ui w) (apply_actions (ui w) (handlerOf env props w ev))
     then completionEffect props (apply_actions (ui w) (handlerOf env props w ev))
     else []).
Proof. reflexivity. Qed.

Lemma handlerOf_callStatus env props w ev :
  callStatus (apply_actions (ui w) (handlerOf env props w ev)) =
  statusAfter env props w ev.
Proof.
  destruct ev; cbn [handlerOf statusAfter]; unfold startIssued, truthy_opt;
    try reflexivity; handler_cases env props w; reflexivity.
Qed.

Lemma step_callStatus env props w ev :
  callStatus (ui (fst (step env props w ev))) = statusAfter env props w ev.
Proof.
  rewrite step_ui.
  destruct (depsChanged _ _).
  - destruct (completionEffect_frame props
               (apply_actions (ui w) (handlerOf env props w ev))
               (apply_actions (ui w) (handlerOf env props w ev)))
      as (Hs & _).
    rewrite Hs. apply handlerOf_callStatus.
  - apply handlerOf_callStatus.
Qed.

Lemma handlerOf_isSpeaking env props w ev :
  isSpeaking (apply_actions (ui w) (handlerOf env props w ev)) =
  match ev with
  | EvSpeechStart => true
  | EvSpeechEnd => false
  | _ => isSpeaking (ui w)
  end.
Proof.
  destruct ev; cbn [handlerOf]; try reflexivity;
    handler_cases env props w; reflexivity.
Qed.

Lemma count_app p l1 l2 : count p (l1 ++ l2) = count p l1 + count p l2.
Proof. unfold count. now rewrite filter_app, length_app. Qed.

Lemma count_zero_not_In p l a : count p l = 0 -> p a = true -> ~ In a l.
Proof.
  unfold count. intros H Ha Hin.
  assert (Hf : In a (filter p l)) by (apply filter_In; auto).
  destruct (filter p l); [contradiction|discriminate].
Qed.

(** ** C2 *)

Lemma finalFragments_cons ev evs :
  finalFragments (ev :: evs) = (finalFragments [ev] ++ finalFragments evs)%list.
Proof. apply (flat_map_app _ [ev] evs). Qed.

Lemma payloads_cons ev evs :
  payloads (ev :: evs) = (payloads [ev] ++ payloads evs)%list.
Proof. apply (flat_map_app _ [ev] evs). Qed.

Lemma finalFragments_payloads evs :
  finalFragments evs = map newMessage (filter is_final_transcript (payloads evs)).
Proof.
  induction evs as [|ev evs IH]; [reflexivity|].
  rewrite finalFragments_cons, payloads_cons.
  rewrite filter_app, map_app, <- IH. f_equal.
  destruct ev; try reflexivity.
  cbn. now destruct (is_final_transcript m).
Qed.

Lemma finalFragments_length evs :
  length (finalFragments evs) = length (filter isFinalEvent evs).
Proof.
  induction evs as [|ev evs IH]; [reflexivity|].
  rewrite finalFragments_cons, length_app, IH.
  destruct ev; try reflexivity.
  cbn. now destruct (is_final_transcript m).
Qed.

(** C2. After any sequence of events the transcript is the transcript before
    it followed by one message per final transcript fragment, in arrival
    order, each with the role and the text of its event; from the mounted
    instance its length is the number of final fragments; and one event
    changes the transcript only when it is a final fragment. *)
Theorem C2_transcript_collects_final_fragments :
  forall env props w evs ev,
    messages (ui (fst (run env props w evs))) =
      (messages (ui w) ++
       map (fun m => {| role := m_role m; content := m_transcript m |})
           (filter is_final_transcript (payloads evs)))%list
    /\ length (messages (ui (fst (run env props mounted evs)))) =
       length (filter isFinalEvent evs)
    /\ messages (ui (fst (step env props w ev))) =
       match ev with
       | EvMessage m =>
           if (m_type m =? "transcript") &&
              match m_transcriptType m with
              | Some t => t =? "final"
              | None => false
              end
           then (messages (ui w) ++
                 [{| role := m_role m; content := m_transcript m |}])%list
           else messages (ui w)
       | _ => messages (ui w)
       end.
Proof.
  intros env props w evs ev. repeat split.
  - rewrite run_messages, finalFragments_payloads. reflexivity.
  - rewrite run_messages. cbn [mounted ui initialState messages app].
    apply finalFragments_length.
  - rewrite step_messages.
    destruct ev; cbn [finalFragments flat_map]; rewrite ?app_nil_r;
      try reflexivity.
    fold (is_final_transcript m).
    destruct (is_final_transcript m); cbn; now rewrite ?app_nil_r.
Qed.

(** ** C9 *)

Lemma world_eta w :
  {| ui := ui w; awaitingStart := awaitingStart w;
     awaitingFeedback := awaitingFeedback w |} = w.
Proof. now destruct w. Qed.

(** C9. An ["error"] event logs the error and changes nothing: not the call
    status, the transcript, the speaking indicator or the last message, nor
    the set of awaited promises.  A ["speech-start"] or ["speech-end"] event
    sets the speaking indicator and leaves everything else as it was. *)
Theorem C9_error_and_speech_frame :
  forall env props w e,
    step env props w (EvError e) = (w, [ConsoleLog e])
    /\ step env props w EvSpeechStart =
       ({| ui := {| callStatus := callStatus (ui w);
                    messages := messages (ui w);
                    isSpeaking := true;
                    lastMessage := lastMessage (ui w) |};
           awaitingStart := awaitingStart w;
           awaitingFeedback := awaitingFeedback w |},
        [SetIsSpeaking true])
    /\ step env props w EvSpeechEnd =
       ({| ui := {| callStatus := callStatus (ui w);
                    messages := messages (ui w);
                    isSpeaking := false;
                    lastMessage := lastMessage (ui w) |};
           awaitingStart := awaitingStart w;
           awaitingFeedback := awaitingFeedback w |},
        [SetIsSpeaking false]).
Proof.
  intros env props w e.
  unfold step. cbn [handlerOf onError onSpeechStart onSpeechEnd
                    apply_actions fold_left apply_action settlesStart
                    settlesFeedback].
  rewrite depsChanged_same.
  unfold depsChanged. cbn [callStatus messages].
  rewrite CallStatus_eqb_refl, Nat.eqb_refl.
  cbn [negb orb app apply_actions fold_left count filter isVapiStart
       isCreateFeedback length].
  rewrite !Nat.add_0_r.
  repeat split.
  now rewrite world_eta.
Qed.

(** * What the effect can and cannot issue *)

Ltac effect_cases props st :=
  unfold completionEffect, handleGenerateFeedback;
  destruct (0 <? length (messages st))%nat;
  destruct (CallStatus_eqb (callStatus st) FINISHED);
  destruct (type props);
  try destruct (interviewId props) as [?iid|];
  try match goal with
      | |- context [if negb (truthy ?a) || negb (truthy ?b) then _ else _] =>
          destruct (negb (truthy a) || negb (truthy b))
      end.

Lemma completionEffect_no_start props st :
  count isVapiStart (completionEffect props st) = 0.
Proof. effect_cases props st; reflexivity. Qed.

Lemma completionEffect_no_alert props st :
  count isAlert (completionEffect props st) = 0.
Proof. effect_cases props st; reflexivity. Qed.

Lemma step_awaitingStart env props w ev :
  awaitingStart (fst (step env props w ev)) =
  (if settlesStart ev then pred (awaitingStart w) else awaitingStart w)
  + count isVapiStart (handlerOf env props w ev).
Proof.
  unfold step. cbn [fst awaitingStart].
  rewrite count_app.
  destruct (depsChanged _ _);
    [rewrite completionEffect_no_start|]; cbn; lia.
Qed.

(** ** C5 *)

(** C5. In normal mode with the interviewer configuration present,
    [handleCall] hands [vapi.start] a [questions] variable that is the
    question list with ["- "] before every element, joined with newlines; it
    is empty for an absent or empty list and ["- a\n- b"] for ["a"; "b"]. *)
Theorem C5_questions_variable :
  forall env props a,
    type props = normal ->
    interviewer env = Some a ->
    handleCall env props =
      [SetCallStatus CONNECTING;
       VapiStart (StartAssistant a (formattedQuestions (questions props)))]
    /\ formattedQuestions (questions props) =
       match questions props with
       | Some l => dashBlock l
       | None => ""
       end
    /\ formattedQuestions None = ""
    /\ formattedQuestions (Some []) = ""
    /\ formattedQuestions (Some ["a"; "b"]) = "- a" ++ LF ++ "- b".
Proof.
  intros env props a Ht Ha. repeat split.
  - unfold handleCall. now rewrite Ht, Ha.
  - unfold formattedQuestions, dashBlock.
    destruct (questions props) as [l|]; [|reflexivity].
    apply join_concat.
Qed.

Lemma C5_questions_variable_witness :
  type normalProps = normal
  /\ interviewer demoEnv = Some demoAssistant
  /\ handleCall demoEnv normalProps =
     [SetCallStatus CONNECTING;
      VapiStart (StartAssistant demoAssistant ("- a" ++ LF ++ "- b"))].
Proof.
  split; [reflexivity|]. split; [reflexivity|].
  exact (proj1 (C5_questions_variable demoEnv normalProps demoAssistant
                  eq_refl eq_refl)).
Defined.

(** ** C3 *)

(** C3. In generate mode without a workflow identifier (the variable unset
    or empty), a click on Call issues no [vapi.start], shows the alert, adds
    no awaited start, and leaves the status INACTIVE. *)
Theorem C3_generate_without_workflow :
  forall env props w,
    type props = generate ->
    truthy_opt (NEXT_PUBLIC_VAPI_WORKFLOW_ID env) = false ->
    handleCall env props =
      [SetCallStatus CONNECTING; Alert noWorkflowText; SetCallStatus INACTIVE]
    /\ count isVapiStart (snd (step env props w ClickCall)) = 0
    /\ count isAlert (snd (step env props w ClickCall)) = 1
    /\ In (Alert noWorkflowText) (snd (step env props w ClickCall))
    /\ awaitingStart (fst (step env props w ClickCall)) = awaitingStart w
    /\ callStatus (ui (fst (step env props w ClickCall))) = INACTIVE.
Proof.
  intros env props w Ht Hw.
  assert (Hh : handleCall env props =
               [SetCallStatus CONNECTING; Alert noWorkflowText;
                SetCallStatus INACTIVE]).
  { unfold handleCall. rewrite Ht.
    destruct (NEXT_PUBLIC_VAPI_WORKFLOW_ID env) as [wid|]; [|reflexivity].
    cbn in Hw. now rewrite Hw. }
  split; [exact Hh|].
  rewrite step_trace, step_awaitingStart, step_callStatus.
  cbn [handlerOf statusAfter settlesStart]. rewrite Hh.
  unfold startIssued. rewrite Ht, Hw.
  rewrite !count_app.
  repeat split.
  - destruct (depsChanged _ _);
      [rewrite completionEffect_no_start|]; reflexivity.
  - destruct (depsChanged _ _);
      [rewrite completionEffect_no_alert|]; reflexivity.
  - apply in_or_app. left. cbn. auto.
  - cbn. lia.
Qed.

Lemma C3_generate_without_workflow_witness :
  type generateProps = generate
  /\ truthy_opt (NEXT_PUBLIC_VAPI_WORKFLOW_ID bareEnv) = false
  /\ count isVapiStart (snd (step bareEnv generateProps mounted ClickCall)) = 0
  /\ callStatus (ui (fst (step bareEnv generateProps mounted ClickCall))) =
     INACTIVE.
Proof.
  split; [reflexivity|]. split; [reflexivity|].
  pose proof (C3_generate_without_workflow bareEnv generateProps mounted
                eq_refl eq_refl) as (_ & H1 & _ & _ & _ & H2).
  exact (conj H1 H2).
Defined.

(** ** C6 *)

(** C6. When an awaited [vapi.start] rejects, in either mode, the catch
    block alerts ["Something went wrong: "] followed by the error's message
    (by the fixed text when the error carries no message or an empty one),
    and the status is INACTIVE afterwards. *)
Theorem C6_start_failure_reported :
  forall env props w e,
    0 < awaitingStart w ->
    handlerOf env props w (StartRejected e) =
      [Alert ("Something went wrong: " ++ errorText e); SetCallStatus INACTIVE]
    /\ In (Alert ("Something went wrong: " ++ errorText e))
          (snd (step env props w (StartRejected e)))
    /\ count isAlert (snd (step env props w (StartRejected e))) = 1
    /\ callStatus (ui (fst (step env props w (StartRejected e)))) = INACTIVE
    /\ (forall m, message e = Some m -> m <> "" -> errorText e = m).
Proof.
  intros env props w e Hw.
  assert (Hpos : (0 <? awaitingStart w)%nat = true) by now apply Nat.ltb_lt.
  assert (Hh : handlerOf env props w (StartRejected e) =
               [Alert ("Something went wrong: " ++ errorText e);
                SetCallStatus INACTIVE]).
  { cbn [handlerOf]. rewrite Hpos. unfold handleCall_catch.
    now destruct (type props). }
  split; [exact Hh|].
  rewrite step_trace, step_callStatus, Hh.
  cbn [statusAfter]. rewrite Hpos.
  repeat split.
  - apply in_or_app. left. cbn. auto.
  - rewrite count_app.
    destruct (depsChanged _ _);
      [rewrite completionEffect_no_alert|]; reflexivity.
  - intros m Hm Hne. unfold errorText. rewrite Hm.
    unfold truthy. apply String.eqb_neq in Hne. now rewrite Hne.
Qed.

Lemma C6_start_failure_reported_witness :
  0 < awaitingStart (fst (step demoEnv generateProps mounted ClickCall))
  /\ In (Alert "Something went wrong: Network unreachable")
        (snd (step demoEnv generateProps
                (fst (step demoEnv generateProps mounted ClickCall))
                (StartRejected {| message := Some "Network unreachable" |})))
  /\ callStatus
       (ui (fst (step demoEnv generateProps
                   (fst (step demoEnv generateProps mounted ClickCall))
                   (StartRejected {| message := Some "Network unreachable" |}))))
     = INACTIVE.
Proof.
  split; [cbn; lia|].
  pose proof (C6_start_failure_reported demoEnv generateProps
                (fst (step demoEnv generateProps mounted ClickCall))
                {| message := Some "Network unreachable" |}
                (le_n 1)) as (_ & H1 & _ & H2 & _).
  exact (conj H1 H2).
Defined.

(** * Where commands can come from *)

Lemma handlerOf_no_feedback env props w ev :
  count isCreateFeedback (handlerOf env props w ev) = 0.
Proof.
  destruct ev; cbn [handlerOf]; try reflexivity;
    handler_cases env props w; reflexivity.
Qed.

Lemma handlerOf_no_setLastMessage env props w ev :
  count isSetLastMessage (handlerOf env props w ev) = 0.
Proof.
  destruct ev; cbn [handlerOf]; try reflexivity;
    handler_cases env props w; reflexivity.
Qed.

Lemma handlerOf_start env props w ev :
  count isVapiStart (handlerOf env props w ev) <> 0 ->
  ev = ClickCall /\ startIssued env props = true.
Proof.
  destruct ev; cbn [handlerOf]; unfold startIssued, truthy_opt;
    try (now intros H; exfalso; apply H);
    handler_cases env props w; intros H; try (now exfalso; apply H);
    now split.
Qed.

Lemma In_completionEffect_feedback props st p :
  In (CreateFeedback p) (completionEffect props st) ->
  callStatus st = FINISHED /\
  type props = normal /\
  interviewId props = Some (fb_interviewId p) /\
  truthy (fb_interviewId p) = true /\
  userId props = fb_userId p /\
  truthy (userId props) = true /\
  fb_transcript p = messages st /\
  fb_feedbackId p = feedbackId props.
Proof.
  unfold completionEffect. intros H.
  apply in_app_or in H. destruct H as [H|H].
  { destruct (0 <? length (messages st))%nat; cbn in H;
      [destruct H as [H|[]]; discriminate | contradiction]. }
  destruct (CallStatus_eqb (callStatus st) FINISHED) eqn:Es;
    [|contradiction].
  apply CallStatus_eqb_eq in Es.
  destruct (type props) eqn:Et.
  { destruct H as [H|[]]; discriminate. }
  unfold handleGenerateFeedback in H.
  destruct (interviewId props) as [iid|] eqn:Ei.
  - destruct (truthy iid) eqn:Ti; destruct (truthy (userId props)) eqn:Tu;
      cbn in H;
      try (destruct H as [H|[H|[]]]; discriminate).
    destruct H as [H|[]]. injection H as <-. cbn.
    repeat split; assumption.
  - destruct H as [H|[H|[]]]; discriminate.
Qed.

Lemma In_step_feedback env props w ev p :
  In (CreateFeedback p) (snd (step env props w ev)) ->
  In (CreateFeedback p)
     (completionEffect props (apply_actions (ui w) (handlerOf env props w ev))).
Proof.
  rewrite step_trace. intros H.
  apply in_app_or in H. destruct H as [H|H].
  - exfalso. revert H.
    apply count_zero_not_In with (p := isCreateFeedback);
      [apply handlerOf_no_feedback | reflexivity].
  - destruct (depsChanged _ _); [exact H | contradiction].
Qed.

Lemma In_run env props w evs a :
  In a (snd (run env props w evs)) ->
  exists w1 ev, In ev evs /\ In a (snd (step env props w1 ev)).
Proof.
  revert w. induction evs as [|ev evs IH]; intros w H.
  - contradiction.
  - rewrite run_cons in H. cbn [snd] in H.
    apply in_app_or in H. destruct H as [H|H].
    + exists w, ev. split; [now left | exact H].
    + destruct (IH _ H) as (w1 & ev1 & Hin & Ha).
      exists w1, ev1. split; [now right | exact Ha].
Qed.

Lemma run_count env props w evs p :
  (forall w1 ev, In ev evs -> count p (snd (step env props w1 ev)) = 0) ->
  count p (snd (run env props w evs)) = 0.
Proof.
  revert w. induction evs as [|ev evs IH]; intros w H; [reflexivity|].
  rewrite run_cons. cbn [snd]. rewrite count_app.
  rewrite H by now left.
  rewrite IH; [reflexivity|].
  intros w1 ev1 Hin. apply H. now right.
Qed.

(** ** C7 *)

Lemma step_reaches_finished env props w ev :
  callStatus (ui w) <> FINISHED ->
  callStatus (ui (fst (step env props w ev))) = FINISHED ->
  ev = EvCallEnd \/ ev = ClickEnd.
Proof.
  rewrite step_callStatus. intros Hw H.
  destruct ev; cbn [statusAfter] in H; auto; try contradiction.
  - destruct (startIssued env props); discriminate.
  - discriminate.
  - destruct (0 <? awaitingStart w)%nat; [discriminate | contradiction].
Qed.

Lemma run_reaches_finished env props evs :
  forall w,
    callStatus (ui w) <> FINISHED ->
    callStatus (ui (fst (run env props w evs))) = FINISHED ->
    In EvCallEnd evs \/ In ClickEnd evs.
Proof.
  induction evs as [|ev evs IH]; intros w Hw H.
  - cbn in H. contradiction.
  - rewrite run_cons in H. cbn [fst] in H.
    destruct (CallStatus_eqb
                (callStatus (ui (fst (step env props w ev)))) FINISHED) eqn:E.
    + apply CallStatus_eqb_eq in E.
      destruct (step_reaches_finished env props w ev Hw E) as [->| ->];
        [left | right]; now left.
    + assert (Hn : callStatus (ui (fst (step env props w ev))) <> FINISHED).
      { intros Hc. apply CallStatus_eqb_eq in Hc. congruence. }
      destruct (IH _ Hn H) as [Hi|Hi]; [left | right]; now right.
Qed.

(** C7. [handleCall] sets the status to CONNECTING before it does anything
    else; a step in which [vapi.start] is issued is a click on Call and ends
    in status CONNECTING; and the status becomes FINISHED only by a
    ["call-end"] event or a click on End, in one step and over any run. *)
Theorem C7_connecting_first_finished_last :
  (forall env props,
      exists rest, handleCall env props = SetCallStatus CONNECTING :: rest)
  /\ (forall env props w ev,
        count isVapiStart (snd (step env props w ev)) <> 0 ->
        ev = ClickCall /\
        hd_error (snd (step env props w ev)) = Some (SetCallStatus CONNECTING) /\
        callStatus (ui (fst (step env props w ev))) = CONNECTING)
  /\ (forall env props w ev,
        callStatus (ui w) <> FINISHED ->
        callStatus (ui (fst (step env props w ev))) = FINISHED ->
        ev = EvCallEnd \/ ev = ClickEnd)
  /\ (forall env props w evs,
        callStatus (ui w) <> FINISHED ->
        callStatus (ui (fst (run env props w evs))) = FINISHED ->
        In EvCallEnd evs \/ In ClickEnd evs).
Proof.
  split; [|split; [|split]].
  - intros env props. unfold handleCall. eexists. reflexivity.
  - intros env props w ev H.
    assert (Hh : count isVapiStart (handlerOf env props w ev) <> 0).
    { rewrite step_trace, count_app in H.
      destruct (depsChanged _ _);
        [rewrite completionEffect_no_start in H|]; cbn in H; lia. }
    destruct (handlerOf_start env props w ev Hh) as (-> & Hs).
    split; [reflexivity|]. split.
    + rewrite step_trace. reflexivity.
    + rewrite step_callStatus. cbn [statusAfter]. now rewrite Hs.
  - intros env props w ev. apply step_reaches_finished.
  - intros env props w evs. apply run_reaches_finished.
Qed.

Lemma C7_connecting_first_finished_last_witness :
  count isVapiStart (snd (step demoEnv normalProps mounted ClickCall)) <> 0
  /\ callStatus (ui (fst (step demoEnv normalProps mounted ClickCall))) =
     CONNECTING
  /\ callStatus (ui mounted) <> FINISHED
  /\ callStatus (ui (fst (run demoEnv normalProps mounted (inCall ++ [ClickEnd]))))
     = FINISHED
  /\ (In EvCallEnd (inCall ++ [ClickEnd]) \/ In ClickEnd (inCall ++ [ClickEnd])).
Proof.
  assert (H1 : count isVapiStart
                 (snd (step demoEnv normalProps mounted ClickCall)) <> 0)
    by (cbn; discriminate).
  assert (H2 : callStatus (ui mounted) <> FINISHED) by (cbn; discriminate).
  assert (H3 : callStatus (ui (fst (run demoEnv normalProps mounted
                                      (inCall ++ [ClickEnd])))) = FINISHED)
    by reflexivity.
  destruct C7_connecting_first_finished_last as (_ & Hs & _ & Hr).
  split; [exact H1|].
  split; [exact (proj2 (proj2 (Hs demoEnv normalProps mounted ClickCall H1)))|].
  split; [exact H2|].
  split; [exact H3|].
  exact (Hr demoEnv normalProps mounted (inCall ++ [ClickEnd])%list H2 H3).
Defined.

(** ** C8 *)

Lemma step_generate_no_feedback env props w ev :
  type props = generate ->
  count isCreateFeedback (snd (step env props w ev)) = 0.
Proof.
  intros Ht. rewrite step_trace, count_app, handlerOf_no_feedback.
  destruct (depsChanged _ _); [|reflexivity].
  set (st := apply_actions _ _). clearbody st.
  unfold completionEffect. rewrite Ht.
  destruct (0 <? length (messages st))%nat;
    now destruct (CallStatus_eqb (callStatus st) FINISHED).
Qed.

Lemma depsChanged_status (old new : State) :
  callStatus old <> callStatus new -> depsChanged old new = true.
Proof.
  intros H. unfold depsChanged.
  destruct (CallStatus_eqb (callStatus old) (callStatus new)) eqn:E;
    [|reflexivity].
  apply CallStatus_eqb_eq in E. contradiction.
Qed.

(** When the status becomes FINISHED the effect runs on the new state. *)
Lemma step_finished_trace env props w ev :
  callStatus (ui w) <> FINISHED ->
  callStatus (ui (fst (step env props w ev))) = FINISHED ->
  exists st,
    callStatus st = FINISHED /\
    messages st = messages (ui (fst (step env props w ev))) /\
    snd (step env props w ev) =
      (handlerOf env props w ev ++ completionEffect props st)%list.
Proof.
  intros Hw H.
  exists (apply_actions (ui w) (handlerOf env props w ev)).
  rewrite step_callStatus in H.
  assert (Hs : callStatus (apply_actions (ui w) (handlerOf env props w ev))
               = FINISHED) by now rewrite handlerOf_callStatus.
  split; [exact Hs|].
  split; [now rewrite step_messages, handlerOf_messages|].
  rewrite step_trace, depsChanged_status; [reflexivity|].
  rewrite Hs. exact Hw.
Qed.

(** C8. In generate mode, a step that brings the status to FINISHED pushes
    the landing route, and no run ever calls [createFeedback]. *)
Theorem C8_generate_redirects_without_feedback :
  forall env props w ev,
    type props = generate ->
    callStatus (ui w) <> FINISHED ->
    callStatus (ui (fst (step env props w ev))) = FINISHED ->
    In (RouterPush landing) (snd (step env props w ev))
    /\ count isRouterPush (snd (step env props w ev)) = 1
    /\ count isCreateFeedback (snd (step env props w ev)) = 0
    /\ (forall w0 evs,
          count isCreateFeedback (snd (run env props w0 evs)) = 0).
Proof.
  intros env props w ev Ht Hw H.
  destruct (step_finished_trace env props w ev Hw H) as (st & Hs & _ & Htr).
  assert (He : completionEffect props st =
               ((if (0 <? length (messages st))%nat
                 then [SetLastMessage (content (lastOf (messages st)))]
                 else []) ++ [RouterPush landing])%list).
  { unfold completionEffect. now rewrite Hs, Ht. }
  assert (Hev : ev = EvCallEnd \/ ev = ClickEnd)
    by exact (step_reaches_finished env props w ev Hw H).
  repeat split.
  - rewrite Htr, He. apply in_or_app. right. apply in_or_app. right. now left.
  - rewrite Htr, He, !count_app.
    destruct Hev as [-> | ->];
      now destruct (0 <? length (messages st))%nat.
  - now apply step_generate_no_feedback.
  - intros w0 evs. apply run_count.
    intros w1 ev1 _. now apply step_generate_no_feedback.
Qed.

Lemma C8_generate_redirects_without_feedback_witness :
  type generateProps = generate
  /\ callStatus (ui (fst (run demoEnv generateProps mounted inCall))) <> FINISHED
  /\ In (RouterPush "/")
        (snd (step demoEnv generateProps
                (fst (run demoEnv generateProps mounted inCall)) EvCallEnd))
  /\ count isCreateFeedback
       (snd (run demoEnv generateProps mounted (inCall ++ [EvCallEnd]))) = 0.
Proof.
  assert (Hw : callStatus (ui (fst (run demoEnv generateProps mounted inCall)))
               <> FINISHED) by (cbn; discriminate).
  split; [reflexivity|]. split; [exact Hw|].
  pose proof (C8_generate_redirects_without_feedback demoEnv generateProps
                (fst (run demoEnv generateProps mounted inCall)) EvCallEnd
                eq_refl Hw eq_refl) as (H1 & _ & _ & H2).
  split; [exact H1 | apply H2].
Defined.

(** ** C4 *)

Lemma feedbackEligible_spec props :
  feedbackEligible props = true <->
  type props = normal /\
  (exists iid, interviewId props = Some iid /\ truthy iid = true) /\
  truthy (userId props) = true.
Proof.
  unfold feedbackEligible, truthy_opt. split.
  - destruct (type props); [discriminate|].
    destruct (interviewId props) as [iid|]; [|discriminate].
    intros H. apply andb_true_iff in H. destruct H as [H1 H2].
    split; [reflexivity|]. split; [|exact H2]. now exists iid.
  - intros (-> & (iid & -> & Hi) & Hu). now rewrite Hi, Hu.
Qed.

(** The effect of an instance that submits feedback. *)
Lemma completionEffect_eligible props st iid :
  type props = normal ->
  interviewId props = Some iid ->
  truthy iid = true ->
  truthy (userId props) = true ->
  completionEffect props st =
  ((if (0 <? length (messages st))%nat
    then [SetLastMessage (content (lastOf (messages st)))] else []) ++
   (if CallStatus_eqb (callStatus st) FINISHED
    then [CreateFeedback {| fb_interviewId := iid;
                            fb_userId := userId props;
                            fb_transcript := messages st;
                            fb_feedbackId := feedbackId props |}]
    else []))%list.
Proof.
  intros Ht Hi Hti Hu.
  unfold completionEffect, handleGenerateFeedback.
  now rewrite Ht, Hi, Hti, Hu.
Qed.

(** The effect of an instance that does not. *)
Lemma completionEffect_ineligible props st :
  feedbackEligible props = false ->
  exists diag,
    count isRouterPush diag = 0 /\ count isCreateFeedback diag = 0 /\
    count isAlert diag = 0 /\
    completionEffect props st =
    ((if (0 <? length (messages st))%nat
      then [SetLastMessage (content (lastOf (messages st)))] else []) ++
     (if CallStatus_eqb (callStatus st) FINISHED
      then diag ++ [RouterPush landing] else []))%list.
Proof.
  unfold feedbackEligible, completionEffect, handleGenerateFeedback, truthy_opt.
  intros H.
  destruct (type props).
  - exists []. now repeat split.
  - exists [ConsoleError
              "Missing interviewId or userId for feedback generation."].
    repeat split.
    destruct (interviewId props) as [iid|]; [|reflexivity].
    apply andb_false_iff in H. destruct H as [H|H]; rewrite H;
      [reflexivity | now rewrite orb_true_r].
Qed.

(** C4. Every [createFeedback] call of every run comes from an instance in
    normal mode whose interview and user identifiers are both present
    (non-empty), and carries them.  A run of the completion handler on
    status FINISHED submits feedback exactly when these conditions hold; in
    every other case it pushes the landing route, once, with no
    [createFeedback] and no alert. *)
Theorem C4_feedback_only_when_eligible :
  (forall env props w evs p,
      In (CreateFeedback p) (snd (run env props w evs)) ->
      type props = normal /\
      interviewId props = Some (fb_interviewId p) /\
      truthy (fb_interviewId p) = true /\
      userId props = fb_userId p /\
      truthy (userId props) = true)
  /\ (forall props st,
        callStatus st = FINISHED ->
        feedbackEligible props = false ->
        In (RouterPush landing) (completionEffect props st) /\
        count isRouterPush (completionEffect props st) = 1 /\
        count isCreateFeedback (completionEffect props st) = 0 /\
        count isAlert (completionEffect props st) = 0)
  /\ (forall props st,
        callStatus st = FINISHED ->
        feedbackEligible props = true ->
        count isCreateFeedback (completionEffect props st) = 1 /\
        count isRouterPush (completionEffect props st) = 0).
Proof.
  split; [|split].
  - intros env props w evs p H.
    destruct (In_run env props w evs _ H) as (w1 & ev & _ & Hs).
    apply In_step_feedback, In_completionEffect_feedback in Hs.
    destruct Hs as (_ & Ht & Hi & Hti & Hu & Htu & _).
    repeat split; assumption.
  - intros props st Hs He.
    destruct (completionEffect_ineligible props st He)
      as (diag & Hp & Hf & Ha & ->).
    rewrite Hs. cbn [CallStatus_eqb].
    rewrite !count_app, Hp, Hf, Ha.
    repeat split;
      try (now destruct (0 <? length (messages st))%nat).
    apply in_or_app. right. apply in_or_app. right. now left.
  - intros props st Hs He.
    apply feedbackEligible_spec in He.
    destruct He as (Ht & (iid & Hi & Hti) & Hu).
    rewrite (completionEffect_eligible props st iid Ht Hi Hti Hu), Hs.
    cbn [CallStatus_eqb]. rewrite !count_app.
    now destruct (0 <? length (messages st))%nat.
Qed.

Lemma C4_feedback_only_when_eligible_witness :
  In (CreateFeedback
        {| fb_interviewId := "i1"; fb_userId := "u1";
           fb_transcript := [{| role := "assistant"; content := "hello" |}];
           fb_feedbackId := None |})
     (snd (run demoEnv normalProps mounted (inCall ++ [EvCallEnd])))
  /\ type normalProps = normal
  /\ feedbackEligible generateProps = false
  /\ In (RouterPush "/")
        (completionEffect generateProps
           (ui (fst (run demoEnv generateProps mounted (inCall ++ [EvCallEnd]))))).
Proof.
  assert (H : In (CreateFeedback
        {| fb_interviewId := "i1"; fb_userId := "u1";
           fb_transcript := [{| role := "assistant"; content := "hello" |}];
           fb_feedbackId := None |})
     (snd (run demoEnv normalProps mounted (inCall ++ [EvCallEnd])))).
  { cbn. repeat first [now left | right]. }
  destruct C4_feedback_only_when_eligible as (H1 & H2 & _).
  split; [exact H|].
  split; [exact (proj1 (H1 _ _ _ _ _ H))|].
  split; [reflexivity|].
  exact (proj1 (H2 generateProps
                  (ui (fst (run demoEnv generateProps mounted
                              (inCall ++ [EvCallEnd])%list)))
                  eq_refl eq_refl)).
Defined.

(** * Events delivered in one task *)

Lemma handleAll_cons env props w ev evs :
  handleAll env props w (ev :: evs) =
  (fst (handleAll env props (fst (handle env props w ev)) evs),
   (snd (handle env props w ev) ++
    snd (handleAll env props (fst (handle env props w ev)) evs))%list).
Proof.
  cbn [handleAll].
  destruct (handle env props w ev) as [w1 t1]. cbn [fst snd].
  now destruct (handleAll env props w1 evs) as [w2 t2].
Qed.

Lemma runTasks_cons env props w task tasks :
  runTasks env props w (task :: tasks) =
  (fst (runTasks env props (fst (stepTask env props w task)) tasks),
   (snd (stepTask env props w task) ++
    snd (runTasks env props (fst (stepTask env props w task)) tasks))%list).
Proof.
  cbn [runTasks].
  destruct (stepTask env props w task) as [w1 t1]. cbn [fst snd].
  now destruct (runTasks env props w1 tasks) as [w2 t2].
Qed.

(** A task of one event is a [step]. *)
Lemma stepTask_single env props w ev :
  stepTask env props w [ev] = step env props w ev.
Proof.
  unfold stepTask, step. rewrite handleAll_cons.
  cbn [handleAll handle fst snd ui awaitingStart awaitingFeedback].
  rewrite app_nil_r, !count_app.
  f_equal. f_equal; lia.
Qed.

(** Separately delivered events are a run of one-event tasks. *)
Lemma runTasks_singletons env props evs :
  forall w,
    runTasks env props w (map (fun ev => [ev]) evs) = run env props w evs.
Proof.
  induction evs as [|ev evs IH]; intros w; [reflexivity|].
  cbn [map]. rewrite runTasks_cons, run_cons, stepTask_single.
  now rewrite IH.
Qed.

Lemma finalFragments_app evs1 evs2 :
  finalFragments (evs1 ++ evs2) =
  (finalFragments evs1 ++ finalFragments evs2)%list.
Proof. apply flat_map_app. Qed.

Lemma committedRender_messages env props task :
  forall w,
    messages (committedRender env props w task) =
    (messages (ui w) ++ finalFragments task)%list.
Proof.
  unfold committedRender.
  induction task as [|ev task IH]; intros w.
  - cbn. now rewrite app_nil_r.
  - rewrite handleAll_cons. cbn [fst].
    rewrite IH. cbn [handle fst ui].
    rewrite handlerOf_messages, (finalFragments_cons ev task).
    now rewrite <- app_assoc.
Qed.

Lemma committedRender_lastMessage env props task :
  forall w,
    lastMessage (committedRender env props w task) = lastMessage (ui w).
Proof.
  unfold committedRender.
  induction task as [|ev task IH]; intros w; [reflexivity|].
  rewrite handleAll_cons. cbn [fst].
  rewrite IH. cbn [handle fst ui].
  apply handlerOf_lastMessage.
Qed.

Lemma handleAll_no_feedback env props task :
  forall w, count isCreateFeedback (snd (handleAll env props w task)) = 0.
Proof.
  induction task as [|ev task IH]; intros w; [reflexivity|].
  rewrite handleAll_cons. cbn [snd handle].
  now rewrite count_app, handlerOf_no_feedback, IH.
Qed.

Lemma handleAll_no_setLastMessage env props task :
  forall w, count isSetLastMessage (snd (handleAll env props w task)) = 0.
Proof.
  induction task as [|ev task IH]; intros w; [reflexivity|].
  rewrite handleAll_cons. cbn [snd handle].
  now rewrite count_app, handlerOf_no_setLastMessage, IH.
Qed.

Lemma stepTask_trace env props w task :
  snd (stepTask env props w task) =
  (snd (handleAll env props w task) ++
   (if depsChanged (ui w) (committedRender env props w task)
    then completionEffect props (committedRender env props w task)
    else []))%list.
Proof. reflexivity. Qed.

Lemma stepTask_ui env props w task :
  ui (fst (stepTask env props w task)) =
  apply_actions (committedRender env props w task)
    (if depsChanged (ui w) (committedRender env props w task)
     then completionEffect props (committedRender env props w task)
     else []).
Proof. reflexivity. Qed.

Lemma stepTask_messages env props w task :
  messages (ui (fst (stepTask env props w task))) =
  (messages (ui w) ++ finalFragments task)%list.
Proof.
  rewrite stepTask_ui.
  destruct (depsChanged _ _).
  - destruct (completionEffect_frame props
                (committedRender env props w task)
                (committedRender env props w task)) as (_ & Hm & _).
    rewrite Hm. apply committedRender_messages.
  - apply committedRender_messages.
Qed.

Lemma stepTask_callStatus env props w task :
  callStatus (ui (fst (stepTask env props w task))) =
  callStatus (committedRender env props w task).
Proof.
  rewrite stepTask_ui.
  destruct (depsChanged _ _); [|reflexivity].
  now destruct (completionEffect_frame props
                  (committedRender env props w task)
                  (committedRender env props w task)) as (Hs & _).
Qed.

Lemma runTasks_messages env props tasks :
  forall w,
    messages (ui (fst (runTasks env props w tasks))) =
    (messages (ui w) ++ finalFragments (concat tasks))%list.
Proof.
  induction tasks as [|task tasks IH]; intros w.
  - cbn. now rewrite app_nil_r.
  - rewrite runTasks_cons. cbn [fst concat].
    rewrite IH, stepTask_messages, finalFragments_app.
    now rewrite <- app_assoc.
Qed.

(** A render that sees no dependency changed saw no fragment appended. *)
Lemma depsChanged_false_messages env props w task :
  depsChanged (ui w) (committedRender env props w task) = false ->
  finalFragments task = [].
Proof.
  unfold depsChanged. intros H. apply orb_false_iff in H. destruct H as [_ H].
  apply negb_false_iff, Nat.eqb_eq in H.
  rewrite committedRender_messages, length_app in H.
  destruct (finalFragments task); [reflexivity | cbn in H; lia].
Qed.

Lemma stepTask_inSync env props w task :
  lastMessageInSync (ui w) ->
  lastMessageInSync (ui (fst (stepTask env props w task))).
Proof.
  unfold lastMessageInSync. intros Hw.
  pose proof (stepTask_messages env props w task) as Hm.
  rewrite Hm. rewrite stepTask_ui.
  destruct (depsChanged (ui w) (committedRender env props w task)) eqn:D.
  - rewrite completionEffect_lastMessage, committedRender_lastMessage,
      committedRender_messages.
    destruct (messages (ui w) ++ finalFragments task)%list as [|x l] eqn:E.
    + cbn. apply app_eq_nil in E. destruct E as [E _].
      now rewrite E in Hw.
    + reflexivity.
  - cbn [apply_actions fold_left].
    rewrite committedRender_lastMessage.
    rewrite (depsChanged_false_messages env props w task D), app_nil_r.
    exact Hw.
Qed.

Lemma runTasks_inSync env props tasks :
  forall w,
    lastMessageInSync (ui w) ->
    lastMessageInSync (ui (fst (runTasks env props w tasks))).
Proof.
  induction tasks as [|task tasks IH]; intros w Hw; [exact Hw|].
  rewrite runTasks_cons. cbn [fst]. apply IH. now apply stepTask_inSync.
Qed.

Lemma In_runTasks env props tasks a :
  forall w,
    In a (snd (runTasks env props w tasks)) ->
    exists pre task post,
      tasks = (pre ++ task :: post)%list /\
      In a (snd (stepTask env props (fst (runTasks env props w pre)) task)).
Proof.
  induction tasks as [|task tasks IH]; intros w H; [contradiction|].
  rewrite runTasks_cons in H. cbn [snd] in H.
  apply in_app_or in H. destruct H as [H|H].
  - exists [], task, tasks. split; [reflexivity | exact H].
  - destruct (IH _ H) as (pre & t & post & -> & Ha).
    exists (task :: pre), t, post. split; [reflexivity|].
    rewrite runTasks_cons. exact Ha.
Qed.

(** ** C10 *)

Lemma depsChanged_handler env props w ev :
  depsChanged (ui w) (apply_actions (ui w) (handlerOf env props w ev)) =
  negb (CallStatus_eqb (callStatus (ui w)) (statusAfter env props w ev))
  || isFinalEvent ev.
Proof.
  unfold depsChanged.
  rewrite handlerOf_callStatus, handlerOf_messages. f_equal.
  rewrite length_app.
  assert (H : length (finalFragments [ev]) = if isFinalEvent ev then 1 else 0).
  { destruct ev; try reflexivity. cbn. now destruct (is_final_transcript m). }
  rewrite H.
  destruct (isFinalEvent ev); cbn [negb].
  - apply negb_true_iff, Nat.eqb_neq. lia.
  - rewrite Nat.add_0_r. now rewrite Nat.eqb_refl.
Qed.

Lemma step_lastMessage env props w ev :
  lastMessage (ui (fst (step env props w ev))) =
  if depsChanged (ui w) (apply_actions (ui w) (handlerOf env props w ev))
     && (0 <? length (messages (ui (fst (step env props w ev)))))%nat
  then content (lastOf (messages (ui (fst (step env props w ev)))))
  else lastMessage (ui w).
Proof.
  rewrite step_messages, <- (handlerOf_messages env props w ev), step_ui.
  destruct (depsChanged _ _); cbn [andb apply_actions fold_left].
  - rewrite completionEffect_lastMessage.
    now rewrite handlerOf_lastMessage.
  - apply handlerOf_lastMessage.
Qed.

Lemma step_inSync env props w ev :
  lastMessageInSync (ui w) ->
  lastMessageInSync (ui (fst (step env props w ev))).
Proof.
  unfold lastMessageInSync. intros Hw.
  rewrite step_lastMessage.
  rewrite depsChanged_handler.
  pose proof (step_messages env props w ev) as Hm.
  destruct (messages (ui (fst (step env props w ev)))) as [|x l] eqn:E.
  - rewrite andb_false_r.
    symmetry in Hm. apply app_eq_nil in Hm. destruct Hm as [Hm _].
    now rewrite Hm in Hw.
  - cbn [length Nat.ltb Nat.leb]. rewrite andb_true_r.
    destruct (negb _ || isFinalEvent ev) eqn:D; [reflexivity|].
    apply orb_false_iff in D. destruct D as [_ D].
    assert (Hf : finalFragments [ev] = []).
    { destruct ev; try reflexivity. cbn in D |- *. now rewrite D. }
    rewrite Hf, app_nil_r in Hm. rewrite <- Hm in Hw.
    exact Hw.
Qed.

Lemma run_inSync env props evs :
  forall w,
    lastMessageInSync (ui w) ->
    lastMessageInSync (ui (fst (run env props w evs))).
Proof.
  induction evs as [|ev evs IH]; intros w Hw; [exact Hw|].
  rewrite run_cons. cbn [fst]. apply IH. now apply step_inSync.
Qed.

(** C10 (amended). Once the events delivered so far have been processed
    and the effect of the last render has run, [lastMessage] is the content
    of the newest transcript entry when there is one and still the initial
    empty string when there is none; this holds for events delivered one by
    one and for events delivered together in tasks.  In the render React
    commits after the handlers and before the effect, the transcript has its
    new entries while [lastMessage] still has its previous value.  Every
    update of [lastMessage] happens with a non-empty transcript and stores
    the content of its newest entry. *)
Theorem C10_last_message_in_sync_after_effect :
  (forall env props evs,
      lastMessage (ui (fst (run env props mounted evs))) =
      match messages (ui (fst (run env props mounted evs))) with
      | [] => ""
      | _ :: _ =>
          content (nth (length (messages (ui (fst (run env props mounted evs)))) - 1)
                       (messages (ui (fst (run env props mounted evs))))
                       {| role := ""; content := "" |})
      end)
  /\ (forall env props tasks,
        lastMessage (ui (fst (runTasks env props mounted tasks))) =
        match messages (ui (fst (runTasks env props mounted tasks))) with
        | [] => ""
        | _ :: _ =>
            content (lastOf (messages (ui (fst (runTasks env props mounted tasks)))))
        end)
  /\ (forall env props w task,
        messages (committedRender env props w task) =
          (messages (ui w) ++
           map (fun m => {| role := m_role m; content := m_transcript m |})
               (filter is_final_transcript (payloads task)))%list
        /\ lastMessage (committedRender env props w task) = lastMessage (ui w))
  /\ (forall env props w ev s,
        In (SetLastMessage s) (snd (step env props w ev)) ->
        messages (ui (fst (step env props w ev))) <> [] /\
        s = content (lastOf (messages (ui (fst (step env props w ev))))))
  /\ (forall env props w task s,
        In (SetLastMessage s) (snd (stepTask env props w task)) ->
        messages (ui (fst (stepTask env props w task))) <> [] /\
        s = content (lastOf (messages (ui (fst (stepTask env props w task)))))).
Proof.
  assert (Htask : forall env props w task s,
        In (SetLastMessage s) (snd (stepTask env props w task)) ->
        messages (ui (fst (stepTask env props w task))) <> [] /\
        s = content (lastOf (messages (ui (fst (stepTask env props w task)))))).
  { intros env props w task s H.
    rewrite stepTask_messages, <- (committedRender_messages env props task w).
    rewrite stepTask_trace in H.
    apply in_app_or in H. destruct H as [H|H].
    { exfalso. revert H.
      apply count_zero_not_In with (p := isSetLastMessage);
        [apply handleAll_no_setLastMessage | reflexivity]. }
    set (st := committedRender env props w task) in *. clearbody st.
    destruct (depsChanged (ui w) st); [|contradiction].
    unfold completionEffect in H.
    apply in_app_or in H. destruct H as [H|H].
    - destruct (messages st) as [|x l] eqn:E; cbn in H; [contradiction|].
      destruct H as [H|[]]. injection H as <-.
      split; [discriminate | reflexivity].
    - exfalso.
      destruct (CallStatus_eqb (callStatus st) FINISHED); [|contradiction].
      destruct (type props).
      + destruct H as [H|[]]; discriminate.
      + unfold handleGenerateFeedback in H.
        destruct (interviewId props) as [iid|];
          [destruct (negb (truthy iid) || negb (truthy (userId props)))|];
          cbn in H; intuition discriminate. }
  split; [|split; [|split; [|split]]].
  - intros env props evs.
    apply (run_inSync env props evs mounted). reflexivity.
  - intros env props tasks.
    apply (runTasks_inSync env props tasks mounted). reflexivity.
  - intros env props w task. split.
    + rewrite committedRender_messages, finalFragments_payloads. reflexivity.
    + apply committedRender_lastMessage.
  - intros env props w ev s H.
    rewrite <- stepTask_single in H |- *. now apply Htask.
  - exact Htask.
Qed.

Lemma C10_last_message_in_sync_after_effect_witness :
  In (SetLastMessage "hello")
     (snd (step demoEnv normalProps connected (fragment "assistant" "hello")))
  /\ messages (ui (fst (step demoEnv normalProps connected
                          (fragment "assistant" "hello")))) <> []
  /\ lastMessage (ui (fst (run demoEnv normalProps mounted inCall))) = "hello".
Proof.
  assert (H : In (SetLastMessage "hello")
     (snd (step demoEnv normalProps connected (fragment "assistant" "hello")))).
  { cbn. repeat first [now left | right]. }
  destruct C10_last_message_in_sync_after_effect as (H1 & _ & _ & H2 & _).
  split; [exact H|].
  split; [exact (proj1 (H2 _ _ _ _ _ H))|].
  exact (H1 demoEnv normalProps inCall).
Defined.

(** The first final fragment of a call: the render committed after
    [onMessage] has one transcript entry and shows the transcript line,
    while [lastMessage] is still the empty string, not the entry's
    content. *)
Lemma C10_stale_last_message_render :
  messages (committedRender demoEnv normalProps connected
              [fragment "assistant" "hello"])
    = [{| role := "assistant"; content := "hello" |}]
  /\ lastMessage (committedRender demoEnv normalProps connected
                    [fragment "assistant" "hello"]) = ""
  /\ transcriptLine
       (render normalProps
          (committedRender demoEnv normalProps connected
             [fragment "assistant" "hello"])) = Some ""
  /\ ~ lastMessageInSync
         (committedRender demoEnv normalProps connected
            [fragment "assistant" "hello"]).
Proof.
  split; [reflexivity|]. split; [reflexivity|]. split; [reflexivity|].
  unfold lastMessageInSync. cbn. discriminate.
Qed.

(** ** C1 *)

Section Eligible.

Variables (env : Env) (props : AgentProps) (iid : string).
Hypothesis Hmode : type props = normal.
Hypothesis Hiid : interviewId props = Some iid.
Hypothesis Hiid_truthy : truthy iid = true.
Hypothesis Huid_truthy : truthy (userId props) = true.

Lemma eligible_effect_counts st :
  count isCreateFeedback (completionEffect props st) =
    (if CallStatus_eqb (callStatus st) FINISHED then 1 else 0)
  /\ count isRouterPush (completionEffect props st) = 0
  /\ count (isPushTo (feedbackRoute props)) (completionEffect props st) = 0.
Proof.
  rewrite (completionEffect_eligible props st iid Hmode Hiid Hiid_truthy
             Huid_truthy).
  rewrite !count_app.
  destruct (0 <? length (messages st))%nat;
    destruct (CallStatus_eqb (callStatus st) FINISHED); now repeat split.
Qed.

Lemma statusAfter_staysFinished w ev :
  callStatus (ui w) = FINISHED ->
  staysFinished ev = true ->
  statusAfter env props w ev = FINISHED.
Proof.
  intros Hw Hs. destruct ev; cbn in Hs |- *; congruence.
Qed.

(** What one step adds to the trace besides the effect's share. *)
Lemma step_counts w ev :
  count isRouterPush (snd (step env props w ev)) =
    count isRouterPush (handlerOf env props w ev)
  /\ count (isPushTo (feedbackRoute props)) (snd (step env props w ev)) =
     count (isPushTo (feedbackRoute props)) (handlerOf env props w ev)
  /\ awaitingFeedback (fst (step env props w ev)) =
     (if settlesFeedback ev then pred (awaitingFeedback w)
      else awaitingFeedback w)
     + count isCreateFeedback (snd (step env props w ev)).
Proof.
  unfold step. cbn [fst snd awaitingFeedback].
  set (st := apply_actions (ui w) (handlerOf env props w ev)).
  rewrite !count_app.
  destruct (depsChanged (ui w) st); [|cbn; lia].
  destruct (eligible_effect_counts st) as (_ & -> & ->). lia.
Qed.

Lemma handlerOf_pushes w ev :
  settlesFeedback ev = false ->
  count isRouterPush (handlerOf env props w ev) = 0 /\
  count (isPushTo (feedbackRoute props)) (handlerOf env props w ev) = 0.
Proof.
  destruct ev; cbn [handlerOf settlesFeedback]; intros H;
    try discriminate; handler_cases env props w; now split.
Qed.

(** An answer that is a success with an identifier turns one awaited call
    into one push of the feedback route, and nothing else navigates. *)
Lemma step_navigation_balance w ev :
  noFailedFeedback ev = true ->
  count (isPushTo (feedbackRoute props)) (snd (step env props w ev))
    + awaitingFeedback (fst (step env props w ev)) =
  awaitingFeedback w + count isCreateFeedback (snd (step env props w ev))
  /\ count isRouterPush (snd (step env props w ev)) =
     count (isPushTo (feedbackRoute props)) (snd (step env props w ev)).
Proof.
  intros Hok.
  destruct (step_counts w ev) as (-> & -> & ->).
  destruct (settlesFeedback ev) eqn:Es.
  - destruct ev; try discriminate; cbn [handlerOf].
    cbn in Hok. unfold handleGenerateFeedback_resume. rewrite Hok.
    destruct (awaitingFeedback w) as [|n]; cbn [Nat.ltb Nat.leb pred];
      [cbn; lia|].
    cbn [count filter isPushTo isRouterPush length].
    rewrite String.eqb_refl. cbn. lia.
  - destruct (handlerOf_pushes w ev Es) as (-> & ->). lia.
Qed.

Lemma run_navigation_balance evs :
  forall w,
    forallb noFailedFeedback evs = true ->
    count (isPushTo (feedbackRoute props)) (snd (run env props w evs))
      + awaitingFeedback (fst (run env props w evs)) =
    awaitingFeedback w + count isCreateFeedback (snd (run env props w evs))
    /\ count isRouterPush (snd (run env props w evs)) =
       count (isPushTo (feedbackRoute props)) (snd (run env props w evs)).
Proof.
  induction evs as [|ev evs IH]; intros w Hok.
  - cbn. lia.
  - cbn [forallb] in Hok. apply andb_true_iff in Hok.
    destruct Hok as [Hev Hok].
    rewrite run_cons. cbn [fst snd]. rewrite !count_app.
    destruct (step_navigation_balance w ev Hev) as (H1 & H2).
    destruct (IH (fst (step env props w ev)) Hok) as (H3 & H4).
    lia.
Qed.

End Eligible.

(** Every run of the effect that sees FINISHED answers with one command to
    the outside: a push of the landing route or a [createFeedback] call. *)
Lemma completionEffect_units props st :
  count isRouterPush (completionEffect props st)
    + count isCreateFeedback (completionEffect props st) =
  if CallStatus_eqb (callStatus st) FINISHED then 1 else 0.
Proof. effect_cases props st; reflexivity. Qed.

Lemma completionEffect_feedback_count props st :
  count isCreateFeedback (completionEffect props st) =
  if CallStatus_eqb (callStatus st) FINISHED && feedbackEligible props
  then 1 else 0.
Proof.
  unfold completionEffect, handleGenerateFeedback, feedbackEligible, truthy_opt.
  rewrite count_app.
  destruct (0 <? length (messages st))%nat;
    destruct (CallStatus_eqb (callStatus st) FINISHED);
    destruct (type props); try reflexivity;
    (destruct (interviewId props) as [iid|]; [|reflexivity]);
    destruct (truthy iid); destruct (truthy (userId props)); reflexivity.
Qed.

(** Only the answer of [createFeedback] makes a handler navigate. *)
Lemma handlerOf_no_push env props w ev :
  settlesFeedback ev = false ->
  count isRouterPush (handlerOf env props w ev) = 0.
Proof.
  destruct ev; cbn [handlerOf settlesFeedback]; intros H;
    try discriminate; handler_cases env props w; reflexivity.
Qed.

(** Whether the effect of a step runs and sees FINISHED. *)
Lemma step_effect_counts env props w ev :
  count isCreateFeedback (snd (step env props w ev)) =
    (if (negb (CallStatus_eqb (callStatus (ui w)) (statusAfter env props w ev))
         || isFinalEvent ev)
        && CallStatus_eqb (statusAfter env props w ev) FINISHED
        && feedbackEligible props
     then 1 else 0)
  /\ count isRouterPush (snd (step env props w ev))
       + awaitingFeedback (fst (step env props w ev)) <=
     awaitingFeedback w
     + (if (negb (CallStatus_eqb (callStatus (ui w))
                    (statusAfter env props w ev))
            || isFinalEvent ev)
           && CallStatus_eqb (statusAfter env props w ev) FINISHED
        then 1 else 0).
Proof.
  unfold step. cbn [fst snd awaitingFeedback].
  rewrite !count_app, handlerOf_no_feedback, depsChanged_handler.
  set (st := apply_actions (ui w) (handlerOf env props w ev)).
  assert (Hst : callStatus st = statusAfter env props w ev)
    by apply handlerOf_callStatus.
  assert (Hh : count isRouterPush (handlerOf env props w ev)
               + (if settlesFeedback ev then pred (awaitingFeedback w)
                  else awaitingFeedback w) <= awaitingFeedback w).
  { destruct (settlesFeedback ev) eqn:Es.
    - destruct ev; try discriminate; cbn [handlerOf].
      + unfold handleGenerateFeedback_resume.
        destruct (awaitingFeedback w) as [|n]; cbn [Nat.ltb Nat.leb pred];
          [cbn; lia|].
        destruct (success r && truthy_opt (res_feedbackId r)); cbn; lia.
      + cbn. lia.
    - rewrite (handlerOf_no_push env props w ev Es). lia. }
  destruct (negb _ || isFinalEvent ev); cbn [andb].
  - pose proof (completionEffect_units props st) as Hu.
    rewrite (completionEffect_feedback_count props st) in Hu |- *.
    rewrite Hst in Hu |- *.
    destruct (CallStatus_eqb (statusAfter env props w ev) FINISHED);
      destruct (feedbackEligible props);
      cbn [andb] in *; split; try reflexivity; lia.
  - split; [reflexivity | cbn; lia].
Qed.

(** After the completion, with the status kept FINISHED and no final
    fragment, the effect does not run again. *)
Lemma run_after_completion env props evs :
  forall w,
    callStatus (ui w) = FINISHED ->
    forallb staysFinished evs = true ->
    filter isFinalEvent evs = [] ->
    count isCreateFeedback (snd (run env props w evs)) = 0
    /\ count isRouterPush (snd (run env props w evs))
         + awaitingFeedback (fst (run env props w evs)) <= awaitingFeedback w.
Proof.
  induction evs as [|ev evs IH]; intros w Hw Hs Hf.
  - cbn. lia.
  - cbn [forallb] in Hs. apply andb_true_iff in Hs. destruct Hs as [Hev Hs].
    cbn [filter] in Hf.
    destruct (isFinalEvent ev) eqn:Efin; [discriminate|].
    pose proof (statusAfter_staysFinished env props w ev Hw Hev) as Hst.
    destruct (step_effect_counts env props w ev) as (Hc & Hp).
    rewrite Hst, Hw, Efin in Hc, Hp.
    cbn [CallStatus_eqb negb orb andb] in Hc, Hp.
    assert (Hw1 : callStatus (ui (fst (step env props w ev))) = FINISHED)
      by now rewrite step_callStatus.
    destruct (IH _ Hw1 Hs Hf) as (Hc2 & Hp2).
    rewrite run_cons. cbn [fst snd]. rewrite !count_app.
    split; lia.
Qed.

(** C1 (amended). In normal mode, let the status become FINISHED by a
    ["call-end"] event or a click on End, and let the events that follow
    keep the status FINISHED and contain no final transcript fragment.  Then
    [createFeedback] is called at most once: exactly once when both
    identifiers are present, not at all otherwise.  The navigations
    performed are at most one more than the [createFeedback] answers that
    were still awaited at the completion, so the completed call accounts for
    at most one navigation.  With both identifiers present, every answer a
    success with an identifier and none awaited any more, the pushes of the
    interview's feedback route are exactly one more than the answers awaited
    at the completion (exactly one when none was), and nothing else is
    pushed. *)
Theorem C1_feedback_once_per_finished_observation :
  forall env props w ev evs,
    type props = normal ->
    callStatus (ui w) <> FINISHED ->
    ev = EvCallEnd \/ ev = ClickEnd ->
    forallb staysFinished evs = true ->
    filter isFinalEvent evs = [] ->
    count isCreateFeedback (snd (run env props w (ev :: evs))) =
      (if truthy_opt (interviewId props) && truthy (userId props)
       then 1 else 0)
    /\ count isCreateFeedback (snd (run env props w (ev :: evs))) <= 1
    /\ count isRouterPush (snd (run env props w (ev :: evs)))
         + awaitingFeedback (fst (run env props w (ev :: evs))) <=
       awaitingFeedback w + 1
    /\ (forall iid,
          interviewId props = Some iid ->
          truthy iid = true ->
          truthy (userId props) = true ->
          forallb noFailedFeedback evs = true ->
          awaitingFeedback (fst (run env props w (ev :: evs))) = 0 ->
          count (isPushTo ("/interview/" ++ iid ++ "/feedback"))
                (snd (run env props w (ev :: evs))) = awaitingFeedback w + 1
          /\ count isRouterPush (snd (run env props w (ev :: evs))) =
             awaitingFeedback w + 1).
Proof.
  intros env props w ev evs Ht Hw Hev Hstay Hnofinal.
  assert (Hst : statusAfter env props w ev = FINISHED)
    by (destruct Hev as [-> | ->]; reflexivity).
  assert (Hobs : negb (CallStatus_eqb (callStatus (ui w)) FINISHED) = true).
  { destruct (callStatus (ui w)); try reflexivity. now contradiction Hw. }
  assert (Hel : feedbackEligible props =
                truthy_opt (interviewId props) && truthy (userId props))
    by (unfold feedbackEligible; now rewrite Ht).
  destruct (step_effect_counts env props w ev) as (Hc1 & Hp1).
  rewrite Hst, Hobs, Hel in Hc1. rewrite Hst, Hobs in Hp1.
  cbn [orb andb CallStatus_eqb] in Hc1, Hp1.
  assert (Hw1 : callStatus (ui (fst (step env props w ev))) = FINISHED)
    by now rewrite step_callStatus.
  destruct (run_after_completion env props evs _ Hw1 Hstay Hnofinal)
    as (Hc2 & Hp2).
  assert (Hcount : count isCreateFeedback (snd (run env props w (ev :: evs))) =
                   (if truthy_opt (interviewId props) && truthy (userId props)
                    then 1 else 0)).
  { rewrite run_cons. cbn [snd]. rewrite count_app, Hc1, Hc2. lia. }
  split; [exact Hcount|]. split.
  { rewrite Hcount. destruct (_ && _); lia. }
  split.
  { rewrite run_cons. cbn [fst snd]. rewrite count_app. lia. }
  intros iid Hi Hti Hu Hok Hdone.
  assert (Hok' : forallb noFailedFeedback (ev :: evs) = true).
  { cbn [forallb]. rewrite Hok. now destruct Hev as [-> | ->]. }
  destruct (run_navigation_balance env props iid Ht Hi Hti Hu (ev :: evs) w Hok')
    as (H1 & H2).
  assert (Hroute : feedbackRoute props = "/interview/" ++ iid ++ "/feedback")
    by (unfold feedbackRoute; now rewrite Hi).
  rewrite Hroute in H1, H2.
  rewrite Hdone, Hcount, Hi in H1. cbn [truthy_opt] in H1.
  rewrite Hti, Hu in H1. cbn [andb] in H1.
  split; [|rewrite H2]; lia.
Qed.

Lemma C1_feedback_once_per_finished_observation_witness :
  type normalProps = normal
  /\ callStatus (ui (fst (run demoEnv normalProps mounted inCall))) <> FINISHED
  /\ forallb staysFinished [EvSpeechEnd; EvCallEnd; feedbackOk] = true
  /\ filter isFinalEvent [EvSpeechEnd; EvCallEnd; feedbackOk] = []
  /\ interviewId normalProps = Some "i1"
  /\ count isCreateFeedback
       (snd (run demoEnv normalProps
               (fst (run demoEnv normalProps mounted inCall))
               [ClickEnd; EvSpeechEnd; EvCallEnd; feedbackOk])) = 1
  /\ count (isPushTo "/interview/i1/feedback")
       (snd (run demoEnv normalProps
               (fst (run demoEnv normalProps mounted inCall))
               [ClickEnd; EvSpeechEnd; EvCallEnd; feedbackOk])) = 1.
Proof.
  assert (Hw : callStatus (ui (fst (run demoEnv normalProps mounted inCall)))
               <> FINISHED) by (cbn; discriminate).
  pose proof (C1_feedback_once_per_finished_observation
                demoEnv normalProps
                (fst (run demoEnv normalProps mounted inCall))
                ClickEnd [EvSpeechEnd; EvCallEnd; feedbackOk]
                eq_refl Hw (or_intror eq_refl) eq_refl eq_refl)
    as (H1 & _ & _ & H2).
  do 5 (split; [first [exact Hw | reflexivity]|]).
  split; [exact H1|].
  exact (proj1 (H2 "i1" eq_refl eq_refl eq_refl eq_refl eq_refl)).
Defined.

(** The same completed call, with one more final fragment delivered after
    the click on End and before [createFeedback] has answered: every event
    is deliverable, the status becomes FINISHED once, and [createFeedback] is
    called twice, each answer pushing the feedback route. *)
Lemma C1_feedback_invoked_twice :
  deliverableRun demoEnv normalProps mounted
    (inCall ++ [ClickEnd; fragment "user" "bye"; feedbackOk; feedbackOk]) = true
  /\ count isCreateFeedback
       (snd (run demoEnv normalProps mounted
               (inCall ++ [ClickEnd; fragment "user" "bye"]))) = 2
  /\ count (isPushTo "/interview/i1/feedback")
       (snd (run demoEnv normalProps mounted
               (inCall ++ [ClickEnd; fragment "user" "bye";
                           feedbackOk; feedbackOk]))) = 2
  /\ ~ (forall env props w ev evs,
          type props = normal ->
          callStatus (ui w) <> FINISHED ->
          awaitingFeedback w = 0 ->
          ev = EvCallEnd \/ ev = ClickEnd ->
          forallb staysFinished evs = true ->
          count isCreateFeedback (snd (run env props w (ev :: evs))) <= 1).
Proof.
  split; [reflexivity|]. split; [reflexivity|]. split; [reflexivity|].
  intros H.
  assert (Hw : callStatus (ui (fst (run demoEnv normalProps mounted inCall)))
               <> FINISHED) by (cbn; discriminate).
  pose proof (H demoEnv normalProps
                (fst (run demoEnv normalProps mounted inCall))
                ClickEnd [fragment "user" "bye"]
                eq_refl Hw eq_refl (or_intror eq_refl) eq_refl) as Hc.
  cbn in Hc. lia.
Qed.

(** * Further properties of the component *)

(** ** Who sets which status *)

(** X1. Every change of the call status has one cause: ACTIVE comes from a
    ["call-start"] event, FINISHED from a ["call-end"] event or a click on
    End, CONNECTING from a click on Call that reaches [vapi.start], and
    INACTIVE from a click on Call that lacks its configuration or from an
    awaited start that rejects. *)
Theorem X1_status_change_causes :
  forall env props w ev,
    callStatus (ui (fst (step env props w ev))) <> callStatus (ui w) ->
    match callStatus (ui (fst (step env props w ev))) with
    | ACTIVE => ev = EvCallStart
    | FINISHED => ev = EvCallEnd \/ ev = ClickEnd
    | CONNECTING => ev = ClickCall /\ startIssued env props = true
    | INACTIVE =>
        (ev = ClickCall /\ startIssued env props = false)
        \/ (exists e, ev = StartRejected e /\ 0 < awaitingStart w)
    end.
Proof.
  intros env props w ev. rewrite step_callStatus.
  destruct ev; cbn [statusAfter]; intros H;
    try (now exfalso; apply H); auto.
  - destruct (startIssued env props); auto.
  - destruct (0 <? awaitingStart w)%nat eqn:E; [|now exfalso; apply H].
    right. exists e. split; [reflexivity|]. now apply Nat.ltb_lt.
Qed.

Lemma X1_status_change_causes_witness :
  callStatus (ui (fst (step demoEnv normalProps mounted ClickCall)))
    <> callStatus (ui mounted)
  /\ startIssued demoEnv normalProps = true.
Proof.
  assert (H : callStatus (ui (fst (step demoEnv normalProps mounted ClickCall)))
              <> callStatus (ui mounted)) by (cbn; discriminate).
  split; [exact H|].
  exact (proj2 (X1_status_change_causes demoEnv normalProps mounted ClickCall H)).
Defined.

(** ** Repeated status events *)

Lemma step_without_change env props w ev :
  statusAfter env props w ev = callStatus (ui w) ->
  isFinalEvent ev = false ->
  ui (fst (step env props w ev)) =
    apply_actions (ui w) (handlerOf env props w ev)
  /\ snd (step env props w ev) = handlerOf env props w ev.
Proof.
  intros Hs Hf.
  rewrite step_ui, step_trace, depsChanged_handler, Hs, Hf.
  rewrite CallStatus_eqb_refl. cbn [negb orb apply_actions fold_left].
  now rewrite app_nil_r.
Qed.

Lemma state_eta st :
  {| callStatus := callStatus st; messages := messages st;
     isSpeaking := isSpeaking st; lastMessage := lastMessage st |} = st.
Proof. now destruct st. Qed.

(** X2. A ["call-end"] event that finds the status FINISHED already (the
    user's click on End came first) sets the same status again and nothing
    else happens: the effect does not run, so no second feedback submission
    or navigation comes from it, and the instance is as before.  The same
    holds for a ["call-start"] event that finds the status ACTIVE. *)
Theorem X2_repeated_status_event_is_idle :
  forall env props w,
    (callStatus (ui w) = FINISHED ->
     step env props w EvCallEnd = (w, [SetCallStatus FINISHED]))
    /\ (callStatus (ui w) = ACTIVE ->
        step env props w EvCallStart = (w, [SetCallStatus ACTIVE])).
Proof.
  intros env props w.
  split; intros Hw.
  - destruct (step_without_change env props w EvCallEnd) as (Hu & Ht);
      [now cbn; rewrite Hw | reflexivity |].
    rewrite (surjective_pairing (step env props w EvCallEnd)), Ht.
    f_equal.
    assert (Hs : awaitingStart (fst (step env props w EvCallEnd))
                 = awaitingStart w).
    { rewrite step_awaitingStart. cbn. lia. }
    assert (Hf : awaitingFeedback (fst (step env props w EvCallEnd))
                 = awaitingFeedback w).
    { unfold step in Ht |- *. cbn [fst snd awaitingFeedback] in *.
      rewrite Ht. cbn. lia. }
    destruct (fst (step env props w EvCallEnd)) as [u a f].
    cbn in Hu, Hs, Hf. subst.
    cbn [handlerOf onCallEnd apply_actions fold_left apply_action].
    rewrite <- Hw, state_eta. apply world_eta.
  - destruct (step_without_change env props w EvCallStart) as (Hu & Ht);
      [now cbn; rewrite Hw | reflexivity |].
    rewrite (surjective_pairing (step env props w EvCallStart)), Ht.
    f_equal.
    assert (Hs : awaitingStart (fst (step env props w EvCallStart))
                 = awaitingStart w).
    { rewrite step_awaitingStart. cbn. lia. }
    assert (Hf : awaitingFeedback (fst (step env props w EvCallStart))
                 = awaitingFeedback w).
    { unfold step in Ht |- *. cbn [fst snd awaitingFeedback] in *.
      rewrite Ht. cbn. lia. }
    destruct (fst (step env props w EvCallStart)) as [u a f].
    cbn in Hu, Hs, Hf. subst.
    cbn [handlerOf onCallStart apply_actions fold_left apply_action].
    rewrite <- Hw, state_eta. apply world_eta.
Qed.

Lemma X2_repeated_status_event_is_idle_witness :
  callStatus
    (ui (fst (run demoEnv normalProps mounted (inCall ++ [ClickEnd]))))
    = FINISHED
  /\ snd (step demoEnv normalProps
            (fst (run demoEnv normalProps mounted (inCall ++ [ClickEnd])))
            EvCallEnd) = [SetCallStatus FINISHED].
Proof.
  split; [reflexivity|].
  exact (f_equal snd
           (proj1 (X2_repeated_status_event_is_idle demoEnv normalProps
                     (fst (run demoEnv normalProps mounted
                             (inCall ++ [ClickEnd])%list)))
                  eq_refl)).
Defined.

(** ** What is submitted *)

(** X3. A [createFeedback] call is issued by the effect of the render that
    follows a task of events, and it carries exactly the transcript
    collected from all the events delivered up to the end of that task (the
    final fragments, in order), together with the interview and user
    identifiers and the prior feedback identifier of the props.  Every
    [createFeedback] call of a run is issued this way. *)
Theorem X3_feedback_payload :
  (forall env props pre task p,
      In (CreateFeedback p)
         (snd (stepTask env props (fst (runTasks env props mounted pre)) task)) ->
      fb_transcript p =
        map (fun m => {| role := m_role m; content := m_transcript m |})
            (filter is_final_transcript (payloads (concat pre ++ task)))
      /\ interviewId props = Some (fb_interviewId p)
      /\ fb_userId p = userId props
      /\ fb_feedbackId p = feedbackId props)
  /\ (forall env props tasks p,
        In (CreateFeedback p) (snd (runTasks env props mounted tasks)) ->
        exists pre task post,
          tasks = (pre ++ task :: post)%list /\
          In (CreateFeedback p)
             (snd (stepTask env props
                     (fst (runTasks env props mounted pre)) task))).
Proof.
  split.
  - intros env props pre task p H.
    rewrite stepTask_trace in H.
    apply in_app_or in H. destruct H as [H|H].
    { exfalso. revert H.
      apply count_zero_not_In with (p := isCreateFeedback);
        [apply handleAll_no_feedback | reflexivity]. }
    destruct (depsChanged _ _); [|contradiction].
    apply In_completionEffect_feedback in H.
    destruct H as (_ & _ & Hi & _ & Hu & _ & Ht & Hf).
    split; [|split; [exact Hi|split; [now symmetry | exact Hf]]].
    rewrite Ht, committedRender_messages, runTasks_messages.
    cbn [mounted ui initialState messages app].
    now rewrite <- finalFragments_app, finalFragments_payloads.
  - intros env props tasks p H.
    exact (In_runTasks env props tasks _ mounted H).
Qed.

Lemma X3_feedback_payload_witness :
  In (CreateFeedback
        {| fb_interviewId := "i1"; fb_userId := "u1";
           fb_transcript := [{| role := "assistant"; content := "hello" |};
                             {| role := "user"; content := "bye" |}];
           fb_feedbackId := None |})
     (snd (stepTask demoEnv normalProps
             (fst (runTasks demoEnv normalProps mounted
                     (map (fun ev => [ev]) inCall)))
             [fragment "user" "bye"; EvCallEnd]))
  /\ payloads (concat (map (fun ev => [ev]) inCall)
               ++ [fragment "user" "bye"; EvCallEnd])
     = [{| m_type := "transcript"; m_transcriptType := Some "final";
           m_role := "assistant"; m_transcript := "hello" |};
        {| m_type := "transcript"; m_transcriptType := Some "final";
           m_role := "user"; m_transcript := "bye" |}]
  /\ fb_feedbackId
       {| fb_interviewId := "i1"; fb_userId := "u1";
          fb_transcript := [{| role := "assistant"; content := "hello" |};
                            {| role := "user"; content := "bye" |}];
          fb_feedbackId := None |} = feedbackId normalProps.
Proof.
  assert (H : In (CreateFeedback
        {| fb_interviewId := "i1"; fb_userId := "u1";
           fb_transcript := [{| role := "assistant"; content := "hello" |};
                             {| role := "user"; content := "bye" |}];
           fb_feedbackId := None |})
     (snd (stepTask demoEnv normalProps
             (fst (runTasks demoEnv normalProps mounted
                     (map (fun ev => [ev]) inCall)))
             [fragment "user" "bye"; EvCallEnd]))).
  { cbn. repeat first [now left | right]. }
  split; [exact H|]. split; [reflexivity|].
  destruct (proj1 X3_feedback_payload _ _ _ _ _ H) as (_ & _ & _ & Hf).
  exact Hf.
Defined.

(** ** Answers of createFeedback *)

(** X4. An awaited [createFeedback] that resolves causes exactly one
    command, a navigation: to the interview's feedback route when the answer
    has [success] and a non-empty identifier, to the landing route
    otherwise.  One that rejects causes no command at all, no navigation
    included.  In both cases the React state is untouched and one awaited
    call is used up. *)
Theorem X4_feedback_answer_handling :
  forall env props w r,
    0 < awaitingFeedback w ->
    step env props w (FeedbackResolved r) =
      ({| ui := ui w; awaitingStart := awaitingStart w;
          awaitingFeedback := pred (awaitingFeedback w) |},
       [RouterPush (if success r && truthy_opt (res_feedbackId r)
                    then "/interview/" ++ interpolate (interviewId props)
                         ++ "/feedback"
                    else "/")])
    /\ step env props w FeedbackRejected =
       ({| ui := ui w; awaitingStart := awaitingStart w;
           awaitingFeedback := pred (awaitingFeedback w) |}, []).
Proof.
  intros env props w r Hw.
  assert (Hpos : (0 <? awaitingFeedback w)%nat = true) by now apply Nat.ltb_lt.
  split.
  - unfold step. cbn [handlerOf settlesStart settlesFeedback]. rewrite Hpos.
    unfold handleGenerateFeedback_resume, feedbackRoute, landing.
    destruct (success r && truthy_opt (res_feedbackId r));
      cbn [apply_actions fold_left apply_action];
      rewrite depsChanged_same; cbn; now rewrite !Nat.add_0_r.
  - unfold step. cbn [handlerOf settlesStart settlesFeedback
                      apply_actions fold_left].
    rewrite depsChanged_same. cbn. now rewrite !Nat.add_0_r.
Qed.

Lemma X4_feedback_answer_handling_witness :
  0 < awaitingFeedback
        (fst (run demoEnv normalProps mounted (inCall ++ [ClickEnd])))
  /\ snd (step demoEnv normalProps
            (fst (run demoEnv normalProps mounted (inCall ++ [ClickEnd])))
            feedbackOk) = [RouterPush "/interview/i1/feedback"].
Proof.
  split; [cbn; lia|].
  exact (f_equal snd
           (proj1 (X4_feedback_answer_handling demoEnv normalProps
                     (fst (run demoEnv normalProps mounted
                             (inCall ++ [ClickEnd])%list))
                     {| success := true; res_feedbackId := Some "f1" |}
                     (le_n 1)))).
Defined.

(** ** The speaking indicator *)

Lemma step_isSpeaking env props w ev :
  isSpeaking (ui (fst (step env props w ev))) =
  match ev with
  | EvSpeechStart => true
  | EvSpeechEnd => false
  | _ => isSpeaking (ui w)
  end.
Proof.
  rewrite step_ui.
  destruct (depsChanged _ _).
  - destruct (completionEffect_frame props
               (apply_actions (ui w) (handlerOf env props w ev))
               (apply_actions (ui w) (handlerOf env props w ev)))
      as (_ & _ & Hs).
    rewrite Hs. apply handlerOf_isSpeaking.
  - apply handlerOf_isSpeaking.
Qed.

Lemma run_app env props w evs1 evs2 :
  run env props w (evs1 ++ evs2) =
  (fst (run env props (fst (run env props w evs1)) evs2),
   (snd (run env props w evs1) ++
    snd (run env props (fst (run env props w evs1)) evs2))%list).
Proof.
  revert w. induction evs1 as [|ev evs1 IH]; intros w.
  - cbn [app run fst snd]. now destruct (run env props w evs2).
  - cbn [app]. rewrite !run_cons, IH. cbn [fst snd].
    now rewrite app_assoc.
Qed.

(** X5. The speaking animation of the page follows the last speech event:
    after any sequence of events it is shown when the last ["speech-start"]
    or ["speech-end"] event delivered was a start, not shown when it was an
    end, and as before when there was none; no other event touches it. *)
Theorem X5_speaking_follows_last_speech_event :
  forall env props w evs,
    speakAnimation (render props (ui (fst (run env props w evs)))) =
    match find isSpeechEvent (rev evs) with
    | Some EvSpeechStart => true
    | Some _ => false
    | None => speakAnimation (render props (ui w))
    end.
Proof.
  intros env props w evs. cbn [render speakAnimation].
  revert w. induction evs as [|ev evs IH] using rev_ind; intros w.
  - reflexivity.
  - rewrite run_app, rev_app_distr. cbn [fst rev app].
    rewrite run_cons. cbn [fst run find].
    rewrite step_isSpeaking.
    destruct ev; cbn [isSpeechEvent]; try apply IH; reflexivity.
Qed.

(** ** Calls to the SDK *)

Lemma handlerOf_stop env props w ev :
  count isVapiStop (handlerOf env props w ev) =
  if isClickEnd ev then 1 else 0.
Proof.
  destruct ev; cbn [handlerOf isClickEnd]; try reflexivity;
    handler_cases env props w; reflexivity.
Qed.

Lemma handlerOf_start_count env props w ev :
  count isVapiStart (handlerOf env props w ev) =
  if isClickCall ev && startIssued env props then 1 else 0.
Proof.
  destruct ev; cbn [handlerOf isClickCall andb]; unfold startIssued, truthy_opt;
    try reflexivity; handler_cases env props w; reflexivity.
Qed.

Lemma completionEffect_no_stop props st :
  count isVapiStop (completionEffect props st) = 0.
Proof. effect_cases props st; reflexivity. Qed.

(** X6. Over any run, [vapi.stop] is called once for every click on End and
    at no other time; [vapi.start] is called once for every click on Call
    when the mode's configuration is present, and never when it is missing.
    Nothing else, a failed start included, calls either of them. *)
Theorem X6_sdk_calls_follow_clicks :
  forall env props w evs,
    count isVapiStop (snd (run env props w evs)) =
      length (filter isClickEnd evs)
    /\ count isVapiStart (snd (run env props w evs)) =
       if startIssued env props then length (filter isClickCall evs) else 0.
Proof.
  intros env props w evs. revert w.
  induction evs as [|ev evs IH]; intros w.
  - cbn. now destruct (startIssued env props).
  - rewrite run_cons. cbn [snd]. rewrite !count_app.
    destruct (IH (fst (step env props w ev))) as (-> & ->).
    rewrite step_trace, !count_app, handlerOf_stop, handlerOf_start_count.
    assert (He : count isVapiStop
                   (if depsChanged (ui w)
                         (apply_actions (ui w) (handlerOf env props w ev))
                    then completionEffect props
                           (apply_actions (ui w) (handlerOf env props w ev))
                    else []) = 0
                 /\ count isVapiStart
                      (if depsChanged (ui w)
                            (apply_actions (ui w) (handlerOf env props w ev))
                       then completionEffect props
                              (apply_actions (ui w) (handlerOf env props w ev))
                       else []) = 0).
    { destruct (depsChanged _ _); [|now split].
      now rewrite completionEffect_no_stop, completionEffect_no_start. }
    destruct He as (-> & ->).
    cbn [filter].
    destruct (isClickEnd ev); destruct (isClickCall ev);
      destruct (startIssued env props); cbn; lia.
Qed.

(** ** Alerts *)

Lemma errorText_nonempty e : errorText e <> "".
Proof.
  unfold errorText.
  destruct (message e) as [m|]; [|discriminate].
  destruct (truthy m) eqn:E; [|discriminate].
  unfold truthy in E. apply negb_true_iff, String.eqb_neq in E. exact E.
Qed.

Lemma In_step_alert env props w ev t :
  In (Alert t) (snd (step env props w ev)) ->
  (ev = ClickCall /\ startIssued env props = false /\
   t = match type props with
       | generate => noWorkflowText
       | normal => noAssistantText
       end)
  \/ (exists e, ev = StartRejected e /\
                t = "Something went wrong: " ++ errorText e).
Proof.
  rewrite step_trace. intros H.
  apply in_app_or in H. destruct H as [H|H].
  - destruct ev; cbn [handlerOf] in H;
      try (cbn in H; intuition discriminate).
    + left. unfold handleCall, startIssued, truthy_opt in *.
      destruct (type props).
      * destruct (NEXT_PUBLIC_VAPI_WORKFLOW_ID env) as [wid|];
          [destruct (truthy wid)|]; cbn in H;
          repeat (destruct H as [H|H]); try discriminate;
          try contradiction; injection H as <-; auto.
      * destruct (interviewer env); cbn in H;
          repeat (destruct H as [H|H]); try discriminate;
          try contradiction; injection H as <-; auto.
    + unfold onMessage in H.
      destruct (is_final_transcript m); cbn in H; intuition discriminate.
    + right. exists e. split; [reflexivity|].
      destruct (0 <? awaitingStart w)%nat; [|contradiction].
      unfold handleCall_catch in H.
      destruct (type props); cbn in H;
        repeat (destruct H as [H|H]); try discriminate;
        try contradiction; injection H as <-; reflexivity.
    + destruct (0 <? awaitingFeedback w)%nat; [|contradiction].
      unfold handleGenerateFeedback_resume in H.
      destruct (success r && truthy_opt (res_feedbackId r)); cbn in H;
        intuition discriminate.
  - exfalso. destruct (depsChanged _ _); [|contradiction].
    revert H. apply count_zero_not_In with (p := isAlert);
      [apply completionEffect_no_alert | reflexivity].
Qed.

(** X7. Every alert of every run is one of two kinds: the fixed text of the
    mode's missing configuration, shown on a click on Call, or
    ["Something went wrong: "] followed by a non-empty reason, shown for a
    rejected start.  Nothing about feedback (missing identifiers, a failed or
    rejected [createFeedback]) ever alerts. *)
Theorem X7_alert_origins :
  forall env props w evs t,
    In (Alert t) (snd (run env props w evs)) ->
    (In ClickCall evs /\ startIssued env props = false /\
     t = match type props with
         | generate =>
             "Vapi Workflow ID must be provided to start the call for 'generate' type."
         | normal =>
             "Assistant (interviewer) must be provided to start the call."
         end)
    \/ (exists e reason,
          In (StartRejected e) evs /\
          t = "Something went wrong: " ++ reason /\ reason <> "" /\
          reason = match message e with
                   | Some m => if negb (m =? "") then m
                               else "Failed to start interview."
                   | None => "Failed to start interview."
                   end).
Proof.
  intros env props w evs t H.
  destruct (In_run env props w evs _ H) as (w1 & ev & Hin & Hs).
  destruct (In_step_alert env props w1 ev t Hs)
    as [(-> & Hn & ->) | (e & -> & ->)].
  - left. now repeat split.
  - right. exists e, (errorText e). repeat split; try assumption.
    apply errorText_nonempty.
Qed.

Lemma X7_alert_origins_witness :
  In (Alert noWorkflowText) (snd (run bareEnv generateProps mounted [ClickCall]))
  /\ startIssued bareEnv generateProps = false.
Proof.
  assert (H : In (Alert noWorkflowText)
                 (snd (run bareEnv generateProps mounted [ClickCall])))
    by (cbn; repeat first [now left | right]).
  split; [exact H|].
  destruct (X7_alert_origins bareEnv generateProps mounted [ClickCall] _ H)
    as [(_ & Hn & _) | (e & reason & Hin & _)].
  - exact Hn.
  - reflexivity.
Defined.

(** ** Fragments that arrive after completion *)

Lemma committedRender_staysFinished env props task :
  forall w,
    callStatus (ui w) = FINISHED ->
    forallb staysFinished task = true ->
    callStatus (committedRender env props w task) = FINISHED.
Proof.
  unfold committedRender.
  induction task as [|ev task IH]; intros w Hw Hs; [exact Hw|].
  cbn [forallb] in Hs. apply andb_true_iff in Hs. destruct Hs as [Hev Hs].
  rewrite handleAll_cons. cbn [fst]. apply IH; [|exact Hs].
  cbn [handle fst ui]. rewrite handlerOf_callStatus.
  now apply statusAfter_staysFinished.
Qed.

(** With the status unchanged, the effect runs exactly for a task that
    appended to the transcript. *)
Lemma depsChanged_same_status env props w task :
  callStatus (committedRender env props w task) = callStatus (ui w) ->
  depsChanged (ui w) (committedRender env props w task) =
  existsb isFinalEvent task.
Proof.
  intros Hs. unfold depsChanged.
  rewrite Hs, CallStatus_eqb_refl. cbn [negb orb].
  rewrite committedRender_messages, length_app, finalFragments_length.
  clear Hs. generalize (length (messages (ui w))). intros n.
  induction task as [|ev task IH].
  - cbn. now rewrite Nat.add_0_r, Nat.eqb_refl.
  - cbn [existsb filter].
    destruct (isFinalEvent ev); cbn [orb length].
    + apply negb_true_iff, Nat.eqb_neq. lia.
    + exact IH.
Qed.

(** X8. In normal mode with both identifiers present, while the status
    stays FINISHED, every task of events that delivers at least one final
    transcript fragment is followed by one render whose effect calls
    [createFeedback] once more; a task without a final fragment causes no
    call.  Fragments delivered each in a task of its own are answered one
    call each, fragments delivered together in one task by one call. *)
Theorem X8_late_fragments_resubmit :
  forall env props iid w tasks,
    type props = normal ->
    interviewId props = Some iid ->
    truthy iid = true ->
    truthy (userId props) = true ->
    callStatus (ui w) = FINISHED ->
    forallb (forallb staysFinished) tasks = true ->
    count isCreateFeedback (snd (runTasks env props w tasks)) =
      length (filter (existsb isFinalEvent) tasks)
    /\ callStatus (ui (fst (runTasks env props w tasks))) = FINISHED.
Proof.
  intros env props iid w tasks Ht Hi Hti Hu. revert w.
  induction tasks as [|task tasks IH]; intros w Hw Hs.
  - now split.
  - cbn [forallb] in Hs. apply andb_true_iff in Hs. destruct Hs as [Htask Hs].
    pose proof (committedRender_staysFinished env props task w Hw Htask) as Hc.
    assert (Hw1 : callStatus (ui (fst (stepTask env props w task))) = FINISHED)
      by now rewrite stepTask_callStatus.
    destruct (IH _ Hw1 Hs) as (IHc & IHs).
    rewrite runTasks_cons. cbn [fst snd].
    split; [|exact IHs].
    rewrite count_app, IHc, stepTask_trace, count_app, handleAll_no_feedback.
    rewrite depsChanged_same_status by now rewrite Hc.
    cbn [filter].
    destruct (existsb isFinalEvent task); [|reflexivity].
    destruct (eligible_effect_counts props iid Ht Hi Hti Hu
                (committedRender env props w task)) as (-> & _).
    rewrite Hc. reflexivity.
Qed.

Lemma X8_late_fragments_resubmit_witness :
  callStatus
    (ui (fst (run demoEnv normalProps mounted (inCall ++ [ClickEnd]))))
    = FINISHED
  /\ forallb (forallb staysFinished)
       [[fragment "user" "bye"; fragment "user" "thanks"];
        [EvSpeechEnd]; [fragment "user" "really"]] = true
  /\ count isCreateFeedback
       (snd (runTasks demoEnv normalProps
               (fst (run demoEnv normalProps mounted (inCall ++ [ClickEnd])))
               [[fragment "user" "bye"; fragment "user" "thanks"];
                [EvSpeechEnd]; [fragment "user" "really"]])) = 2.
Proof.
  split; [reflexivity|]. split; [reflexivity|].
  exact (proj1 (X8_late_fragments_resubmit demoEnv normalProps "i1"
                  (fst (run demoEnv normalProps mounted
                          (inCall ++ [ClickEnd])%list))
                  [[fragment "user" "bye"; fragment "user" "thanks"];
                   [EvSpeechEnd]; [fragment "user" "really"]]
                  eq_refl eq_refl eq_refl eq_refl eq_refl eq_refl)).
Defined.

(** ** The question block *)

Lemma append_empty_r (s : string) : s ++ "" = s.
Proof. induction s as [|c s IH]; cbn; [reflexivity | now rewrite IH]. Qed.

Lemma concat_cons_nonempty sep x y l :
  String.concat sep (x :: y :: l) = x ++ sep ++ String.concat sep (y :: l).
Proof. reflexivity. Qed.

Lemma concat_app sep l1 l2 :
  l1 <> [] -> l2 <> [] ->
  String.concat sep (l1 ++ l2) =
  String.concat sep l1 ++ sep ++ String.concat sep l2.
Proof.
  intros H1 H2. induction l1 as [|x l1 IH]; [contradiction|].
  destruct l1 as [|y l1].
  - destruct l2 as [|z l2]; [contradiction|]. reflexivity.
  - change ((x :: y :: l1) ++ l2)%list with (x :: y :: (l1 ++ l2))%list.
    rewrite !concat_cons_nonempty.
    change (y :: (l1 ++ l2))%list with ((y :: l1) ++ l2)%list.
    rewrite IH by discriminate.
    now rewrite !append_assoc.
Qed.

(** X9. The question block is empty exactly when there are no questions
    (the list absent or empty): a non-empty list always gives a text that
    starts with ["- "], even when its questions are empty strings.  The
    block of two non-empty lists one after the other is their blocks joined
    by one newline. *)
Theorem X9_question_block_shape :
  (forall qs,
      formattedQuestions qs = "" <-> (qs = None \/ qs = Some []))
  /\ (forall (q : string) (l : list string),
        exists rest,
          formattedQuestions (Some (q :: l)) = "- " ++ q ++ rest)
  /\ (forall l1 l2 : list string,
        l1 <> [] -> l2 <> [] ->
        formattedQuestions (Some (l1 ++ l2)%list) =
        formattedQuestions (Some l1) ++ LF ++ formattedQuestions (Some l2)).
Proof.
  assert (Hhead : forall q l, exists rest,
             formattedQuestions (Some (q :: l)) = "- " ++ q ++ rest).
  { intros q l. unfold formattedQuestions. rewrite join_concat.
    destruct l as [|y l]; cbn [map].
    - exists "". cbn [String.concat]. now rewrite append_empty_r.
    - rewrite concat_cons_nonempty. eexists.
      rewrite append_assoc. reflexivity. }
  split; [|split].
  - intros qs. split.
    + destruct qs as [[|q l]|]; auto.
      destruct (Hhead q l) as (rest & ->). discriminate.
    + intros [-> | ->]; reflexivity.
  - exact Hhead.
  - intros l1 l2 H1 H2. unfold formattedQuestions.
    rewrite !join_concat, map_app.
    apply concat_app.
    + destruct l1; [contradiction | discriminate].
    + destruct l2; [contradiction | discriminate].
Qed.

Lemma X9_question_block_shape_witness :
  ["a"] <> [] /\ ["b"; "c"] <> []
  /\ formattedQuestions (Some (["a"] ++ ["b"; "c"])%list) =
     formattedQuestions (Some ["a"]) ++ LF ++ formattedQuestions (Some ["b"; "c"]).
Proof.
  split; [discriminate|]. split; [discriminate|].
  apply (proj2 (proj2 X9_question_block_shape)); discriminate.
Defined.

(** ** The page *)

(** X10. The page shows the End button exactly when the status is ACTIVE
    and the Call button otherwise.  The Call button reads [". . ."] and
    shows its ping animation exactly when the status is CONNECTING, and
    reads ["Call"] exactly when it is INACTIVE or FINISHED.  The click the
    rendered button produces is always one the instance accepts: the button
    that is not rendered cannot be clicked. *)
Theorem X10_button_follows_status :
  forall props w,
    (button (render props (ui w)) = EndButton <-> callStatus (ui w) = ACTIVE)
    /\ (forall hidden label,
          button (render props (ui w)) = CallButton hidden label ->
          (label = ". . ." <-> callStatus (ui w) = CONNECTING)
          /\ (hidden = false <-> callStatus (ui w) = CONNECTING)
          /\ (label = "Call" <->
              callStatus (ui w) = INACTIVE \/ callStatus (ui w) = FINISHED))
    /\ deliverable w (onClick (button (render props (ui w)))) = true
    /\ (forall ev,
          ev = ClickCall \/ ev = ClickEnd ->
          (deliverable w ev = true <->
           ev = onClick (button (render props (ui w))))).
Proof.
  intros props w. cbn [render button].
  destruct (callStatus (ui w)) eqn:E; cbn [CallStatus_eqb negb orb];
    (split; [split; intros H; discriminate || reflexivity|]);
    (split; [intros hidden label H; try discriminate;
             injection H as <- <-;
             repeat split; intros H;
               try discriminate; try reflexivity; auto;
               try (destruct H; discriminate)|]);
    (split; [cbn; now rewrite E|]);
    intros ev [-> | ->]; cbn; rewrite E; cbn; split; intros H;
      try discriminate; reflexivity.
Qed.

Lemma X10_button_follows_status_witness :
  button (render normalProps
            (ui (fst (step demoEnv normalProps mounted ClickCall))))
    = CallButton false ". . ."
  /\ callStatus (ui (fst (step demoEnv normalProps mounted ClickCall)))
     = CONNECTING.
Proof.
  assert (H : button (render normalProps
                (ui (fst (step demoEnv normalProps mounted ClickCall))))
              = CallButton false ". . .") by reflexivity.
  split; [exact H|].
  destruct (X10_button_follows_status normalProps
              (fst (step demoEnv normalProps mounted ClickCall)))
    as (_ & Hc & _).
  exact (proj1 (proj1 (Hc _ _ H)) eq_refl).
Defined.

Lemma lastOf_snoc l m : lastOf (l ++ [m]) = m.
Proof.
  unfold lastOf. rewrite length_app. cbn [length].
  replace (length l + 1 - 1) with (length l) by lia.
  apply nth_middle.
Qed.

(** X11. After any sequence of events delivered to the mounted instance,
    the transcript line of the page is absent when no final transcript
    fragment has been delivered, and otherwise shows the text of the most
    recent final fragment. *)
Theorem X11_transcript_line_shows_latest_fragment :
  forall env props evs,
    transcriptLine (render props (ui (fst (run env props mounted evs)))) =
    match rev (filter is_final_transcript (payloads evs)) with
    | [] => None
    | m :: _ => Some (m_transcript m)
    end.
Proof.
  intros env props evs. cbn [render transcriptLine].
  pose proof (run_inSync env props evs mounted eq_refl) as Hsync.
  unfold lastMessageInSync in Hsync. rewrite Hsync.
  rewrite run_messages. cbn [mounted ui initialState messages app].
  rewrite finalFragments_payloads.
  destruct (rev (filter is_final_transcript (payloads evs))) as [|m r] eqn:E.
  - apply (f_equal (@rev _)) in E. rewrite rev_involutive in E.
    now rewrite E.
  - apply (f_equal (@rev _)) in E. rewrite rev_involutive in E.
    rewrite E. cbn [rev]. rewrite map_app. cbn [map].
    rewrite length_app. cbn [length].
    replace (0 <? length (map newMessage (rev r)) + 1)%nat with true
      by (symmetry; apply Nat.ltb_lt; lia).
    rewrite lastOf_snoc.
    destruct (map newMessage (rev r) ++ [newMessage m])%list eqn:E2;
      [now destruct (map newMessage (rev r))|reflexivity].
Qed.

(** X12. The Call button is clickable in every status but ACTIVE, CONNECTING
    included: with the mode's configuration present, each such click issues
    one [vapi.start], adds one awaited start and leaves the status
    CONNECTING, whether or not an earlier start is still awaited. *)
Theorem X12_every_call_click_starts :
  forall env props w,
    startIssued env props = true ->
    callStatus (ui w) <> ACTIVE ->
    deliverable w ClickCall = true
    /\ count isVapiStart (snd (step env props w ClickCall)) = 1
    /\ awaitingStart (fst (step env props w ClickCall)) = S (awaitingStart w)
    /\ callStatus (ui (fst (step env props w ClickCall))) = CONNECTING.
Proof.
  intros env props w Hs Hw.
  assert (Hc : count isVapiStart (handlerOf env props w ClickCall) = 1).
  { rewrite handlerOf_start_count. cbn [isClickCall andb]. now rewrite Hs. }
  repeat split.
  - cbn. destruct (callStatus (ui w)); try reflexivity. now contradiction Hw.
  - rewrite step_trace, count_app, Hc.
    destruct (depsChanged _ _);
      [rewrite completionEffect_no_start|]; reflexivity.
  - rewrite step_awaitingStart, Hc. cbn. lia.
  - rewrite step_callStatus. cbn. now rewrite Hs.
Qed.

Lemma X12_every_call_click_starts_witness :
  startIssued demoEnv normalProps = true
  /\ callStatus (ui (fst (step demoEnv normalProps mounted ClickCall)))
     = CONNECTING
  /\ awaitingStart
       (fst (step demoEnv normalProps
               (fst (step demoEnv normalProps mounted ClickCall)) ClickCall))
     = 2.
Proof.
  assert (Hw : callStatus (ui (fst (step demoEnv normalProps mounted ClickCall)))
               <> ACTIVE) by (cbn; discriminate).
  split; [reflexivity|]. split; [reflexivity|].
  exact (proj1 (proj2 (proj2
           (X12_every_call_click_starts demoEnv normalProps
              (fst (step demoEnv normalProps mounted ClickCall))
              eq_refl Hw)))).
Defined.

(** ** Subscriptions *)

Lemma removeFirst_here s l : removeFirst s (s :: l) = l.
Proof.
  cbn. unfold Subscription_eqb.
  rewrite String.eqb_refl, Nat.eqb_refl.
  now destruct (fn (snd s)).
Qed.

Lemma emitter_off_last reg s : emitter_off (reg ++ [s]) s = reg.
Proof.
  unfold emitter_off. rewrite rev_app_distr. cbn [rev app].
  rewrite removeFirst_here. apply rev_involutive.
Qed.

(** [off] skips registrations made under another event name. *)
Lemma emitter_off_skip reg s t :
  (fst t =? fst s) = false ->
  emitter_off (reg ++ [t]) s = (emitter_off reg s ++ [t])%list.
Proof.
  intros H. unfold emitter_off. rewrite rev_app_distr. cbn [rev app removeFirst].
  unfold Subscription_eqb. rewrite H. cbn [andb rev]. reflexivity.
Qed.

Lemma listenersOf_app name reg1 reg2 :
  listenersOf name (reg1 ++ reg2) =
  (listenersOf name reg1 ++ listenersOf name reg2)%list.
Proof. unfold listenersOf. now rewrite filter_app, map_app. Qed.

(** X13. Whatever is registered at the SDK object before, the mount effect
    adds exactly one listener of its instance under each of the six event
    names, after the listeners already there, and none under any other name;
    and its cleanup removes exactly these six registrations, leaving the
    registry as it was before the mount. *)
Theorem X13_cleanup_undoes_subscriptions :
  forall k reg,
    mountCleanup k (mountEffect k reg) = reg
    /\ (forall name,
          listenersOf name (mountEffect k reg) =
          (listenersOf name reg ++
           map (fun f => {| instance := k; fn := f |})
             (if name =? "call-start" then [L_onCallStart]
              else if name =? "call-end" then [L_onCallEnd]
              else if name =? "message" then [L_onMessage]
              else if name =? "speech-start" then [L_onSpeechStart]
              else if name =? "speech-end" then [L_onSpeechEnd]
              else if name =? "error" then [L_onError]
              else []))%list).
Proof.
  intros k reg. split.
  - unfold mountCleanup, mountEffect, subscriptions, unsubscriptions.
    cbn [fold_left]. unfold emitter_on.
    repeat (rewrite ?emitter_off_last;
            rewrite ?emitter_off_skip by reflexivity).
    reflexivity.
  - intros name.
    unfold mountEffect, subscriptions. cbn [fold_left]. unfold emitter_on.
    rewrite !listenersOf_app. rewrite <- !app_assoc. f_equal.
    unfold listenersOf. cbn [filter fst snd map app].
    rewrite (String.eqb_sym "call-start"), (String.eqb_sym "call-end"),
      (String.eqb_sym "message"), (String.eqb_sym "speech-start"),
      (String.eqb_sym "speech-end"), (String.eqb_sym "error").
    destruct (name =? "call-start") eqn:E1;
      [apply String.eqb_eq in E1; subst; reflexivity|].
    destruct (name =? "call-end") eqn:E2;
      [apply String.eqb_eq in E2; subst; reflexivity|].
    destruct (name =? "message") eqn:E3;
      [apply String.eqb_eq in E3; subst; reflexivity|].
    destruct (name =? "speech-start") eqn:E4;
      [apply String.eqb_eq in E4; subst; reflexivity|].
    destruct (name =? "speech-end") eqn:E5;
      [apply String.eqb_eq in E5; subst; reflexivity|].
    destruct (name =? "error") eqn:E6;
      [apply String.eqb_eq in E6; subst; reflexivity|].
    reflexivity.
Qed.

(** ** The two copies of the completion handler *)

(** X14. The copy of the component in [src/unnamed/part_000] guards
    [createFeedback] by the interview identifier alone.  With a non-empty
    user identifier its effect issues the same commands as the one of
    [Agent.tsx], console texts apart.  With an empty user identifier and a
    non-empty interview identifier, in normal mode on status FINISHED, the
    copy submits feedback with the empty user identifier where [Agent.tsx]
    pushes the landing route and submits nothing. *)
Theorem X14_copy_guards_interview_id_only :
  (forall props st,
      truthy (userId props) = true ->
      filter (fun a => negb (isConsoleError a)) (completionEffect_copy props st) =
      filter (fun a => negb (isConsoleError a)) (completionEffect props st))
  /\ (forall props st iid,
        truthy (userId props) = false ->
        type props = normal ->
        interviewId props = Some iid ->
        truthy iid = true ->
        callStatus st = FINISHED ->
        In (CreateFeedback {| fb_interviewId := iid; fb_userId := "";
                              fb_transcript := messages st;
                              fb_feedbackId := feedbackId props |})
           (completionEffect_copy props st)
        /\ count isRouterPush (completionEffect_copy props st) = 0
        /\ count isCreateFeedback (completionEffect props st) = 0
        /\ In (RouterPush landing) (completionEffect props st)).
Proof.
  split.
  - intros props st Hu.
    unfold completionEffect_copy, completionEffect,
      handleGenerateFeedback_copy, handleGenerateFeedback.
    rewrite Hu, !filter_app. f_equal.
    destruct (CallStatus_eqb (callStatus st) FINISHED); [|reflexivity].
    destruct (type props); [reflexivity|].
    destruct (interviewId props) as [iid|]; [|reflexivity].
    now destruct (truthy iid).
  - intros props st iid Hu Ht Hi Hti Hs.
    assert (He : userId props = "").
    { unfold truthy in Hu. apply negb_false_iff in Hu.
      now apply String.eqb_eq in Hu. }
    unfold completionEffect_copy, completionEffect,
      handleGenerateFeedback_copy, handleGenerateFeedback.
    rewrite Hs, Ht, Hi, Hti, Hu, He. cbn [CallStatus_eqb negb orb].
    rewrite !count_app.
    repeat split.
    + apply in_or_app. right. now left.
    + now destruct (0 <? length (messages st))%nat.
    + now destruct (0 <? length (messages st))%nat.
    + apply in_or_app. right. right. now left.
Qed.

Lemma X14_copy_guards_interview_id_only_witness :
  truthy (userId normalProps) = true
  /\ filter (fun a => negb (isConsoleError a))
       (completionEffect_copy normalProps
          (ui (fst (run demoEnv normalProps mounted (inCall ++ [ClickEnd])))))
     = filter (fun a => negb (isConsoleError a))
         (completionEffect normalProps
            (ui (fst (run demoEnv normalProps mounted (inCall ++ [ClickEnd])))))
  /\ In (CreateFeedback {| fb_interviewId := "i1"; fb_userId := "";
                           fb_transcript := []; fb_feedbackId := None |})
        (completionEffect_copy
           {| userName := "Ann"; userId := ""; interviewId := Some "i1";
              feedbackId := None; type := normal; questions := None |}
           {| callStatus := FINISHED; messages := []; isSpeaking := false;
              lastMessage := "" |}).
Proof.
  destruct X14_copy_guards_interview_id_only as (H1 & H2).
  split; [reflexivity|].
  split; [apply H1; reflexivity|].
  exact (proj1 (H2 {| userName := "Ann"; userId := ""; interviewId := Some "i1";
                      feedbackId := None; type := normal; questions := None |}
                   {| callStatus := FINISHED; messages := []; isSpeaking := false;
                      lastMessage := "" |}
                   "i1" eq_refl eq_refl eq_refl eq_refl eq_refl)).
Defined.

(** ** Before completion *)

Lemma step_quiet env props w ev :
  callStatus (ui w) <> FINISHED ->
  awaitingFeedback w = 0 ->
  isCompletion ev = false ->
  callStatus (ui (fst (step env props w ev))) <> FINISHED
  /\ awaitingFeedback (fst (step env props w ev)) = 0
  /\ count isRouterPush (snd (step env props w ev)) = 0
  /\ count isCreateFeedback (snd (step env props w ev)) = 0.
Proof.
  intros Hw Ha Hc.
  assert (Hs : callStatus (ui (fst (step env props w ev))) <> FINISHED).
  { intros H. destruct (step_reaches_finished env props w ev Hw H) as [-> | ->];
      discriminate. }
  assert (Heff : forall p,
             count p (if depsChanged (ui w)
                           (apply_actions (ui w) (handlerOf env props w ev))
                      then completionEffect props
                             (apply_actions (ui w) (handlerOf env props w ev))
                      else []) =
             count p (if (0 <? length (messages
                        (apply_actions (ui w) (handlerOf env props w ev))))%nat
                         && depsChanged (ui w)
                              (apply_actions (ui w) (handlerOf env props w ev))
                      then [SetLastMessage
                              (content (lastOf (messages
                                 (apply_actions (ui w)
                                    (handlerOf env props w ev)))))]
                      else [])).
  { intros p. rewrite step_callStatus, <- (handlerOf_callStatus env props w ev)
      in Hs.
    set (st := apply_actions (ui w) (handlerOf env props w ev)) in *.
    destruct (depsChanged (ui w) st); [|now rewrite andb_false_r].
    rewrite andb_true_r. unfold completionEffect.
    destruct (CallStatus_eqb (callStatus st) FINISHED) eqn:E.
    - apply CallStatus_eqb_eq in E. contradiction.
    - now rewrite app_nil_r. }
  assert (Hpush : count isRouterPush (snd (step env props w ev)) = 0).
  { rewrite step_trace, count_app, Heff.
    replace (count isRouterPush (handlerOf env props w ev)) with 0.
    - now destruct (_ && _).
    - destruct ev; cbn [handlerOf]; try reflexivity;
        try (handler_cases env props w; reflexivity).
      rewrite Ha. reflexivity. }
  assert (Hfb : count isCreateFeedback (snd (step env props w ev)) = 0).
  { rewrite step_trace, count_app, Heff, handlerOf_no_feedback.
    now destruct (_ && _). }
  repeat split; try assumption.
  unfold step in Hfb |- *. cbn [fst snd awaitingFeedback] in *.
  rewrite Hfb, Ha. now destruct (settlesFeedback ev).
Qed.

(** X15. Until the call is completed the component neither navigates nor
    submits feedback: over any sequence of events that contains no
    ["call-end"] event and no click on End, delivered to the mounted
    instance, no route is pushed and [createFeedback] is not called,
    whatever the mode, the configuration and the answers of the SDK. *)
Theorem X15_nothing_leaves_before_completion :
  forall env props evs,
    forallb (fun ev => negb (isCompletion ev)) evs = true ->
    count isRouterPush (snd (run env props mounted evs)) = 0
    /\ count isCreateFeedback (snd (run env props mounted evs)) = 0
    /\ callStatus (ui (fst (run env props mounted evs))) <> FINISHED.
Proof.
  intros env props evs.
  assert (Hgen : forall w,
             callStatus (ui w) <> FINISHED ->
             awaitingFeedback w = 0 ->
             forallb (fun ev => negb (isCompletion ev)) evs = true ->
             count isRouterPush (snd (run env props w evs)) = 0
             /\ count isCreateFeedback (snd (run env props w evs)) = 0
             /\ callStatus (ui (fst (run env props w evs))) <> FINISHED).
  { induction evs as [|ev evs IH]; intros w Hw Ha Hq.
    - now repeat split.
    - cbn [forallb] in Hq. apply andb_true_iff in Hq. destruct Hq as [Hev Hq].
      apply negb_true_iff in Hev.
      destruct (step_quiet env props w ev Hw Ha Hev) as (H1 & H2 & H3 & H4).
      destruct (IH _ H1 H2 Hq) as (H5 & H6 & H7).
      rewrite run_cons. cbn [fst snd]. rewrite !count_app.
      repeat split; try assumption; lia. }
  apply Hgen; [cbn; discriminate | reflexivity].
Qed.

Lemma X15_nothing_leaves_before_completion_witness :
  forallb (fun ev => negb (isCompletion ev))
    (inCall ++ [FeedbackResolved {| success := true; res_feedbackId := Some "f1" |};
                StartRejected {| message := None |}]) = true
  /\ count isRouterPush
       (snd (run demoEnv normalProps mounted
               (inCall ++ [FeedbackResolved
                             {| success := true; res_feedbackId := Some "f1" |};
                           StartRejected {| message := None |}]))) = 0.
Proof.
  split; [reflexivity|].
  exact (proj1 (X15_nothing_leaves_before_completion demoEnv normalProps
                  (inCall ++ [FeedbackResolved
                                {| success := true; res_feedbackId := Some "f1" |};
                              StartRejected {| message := None |}])%list
                  eq_refl)).
Defined.

(** ** A click on Call without configuration *)

Lemma completionEffect_not_finished props st :
  callStatus st <> FINISHED ->
  count isCreateFeedback (completionEffect props st) = 0 /\
  count isRouterPush (completionEffect props st) = 0.
Proof.
  intros H. unfold completionEffect.
  destruct (CallStatus_eqb (callStatus st) FINISHED) eqn:E.
  - apply CallStatus_eqb_eq in E. contradiction.
  - now destruct (0 <? length (messages st))%nat.
Qed.

(** X16. In either mode, a click on Call that lacks the mode's
    configuration (the workflow identifier unset or empty in generate mode,
    the interviewer configuration absent in normal mode) shows exactly one
    alert and leaves the status INACTIVE; it issues no [vapi.start], adds no
    awaited start, pushes no route, submits no feedback, and leaves the
    transcript as it was. *)
Theorem X16_call_without_configuration :
  forall env props w,
    startIssued env props = false ->
    count isAlert (snd (step env props w ClickCall)) = 1
    /\ callStatus (ui (fst (step env props w ClickCall))) = INACTIVE
    /\ count isVapiStart (snd (step env props w ClickCall)) = 0
    /\ awaitingStart (fst (step env props w ClickCall)) = awaitingStart w
    /\ count isRouterPush (snd (step env props w ClickCall)) = 0
    /\ count isCreateFeedback (snd (step env props w ClickCall)) = 0
    /\ messages (ui (fst (step env props w ClickCall))) = messages (ui w).
Proof.
  intros env props w Hs.
  assert (Hst : callStatus (apply_actions (ui w) (handlerOf env props w ClickCall))
                = INACTIVE).
  { rewrite handlerOf_callStatus. cbn [statusAfter]. now rewrite Hs. }
  assert (Hne : callStatus (apply_actions (ui w) (handlerOf env props w ClickCall))
                <> FINISHED) by (rewrite Hst; discriminate).
  assert (Hh : count isAlert (handlerOf env props w ClickCall) = 1
               /\ count isRouterPush (handlerOf env props w ClickCall) = 0).
  { cbn [handlerOf]. unfold startIssued, truthy_opt in Hs. unfold handleCall.
    destruct (type props).
    - destruct (NEXT_PUBLIC_VAPI_WORKFLOW_ID env) as [wid|]; [|now split].
      rewrite Hs. now split.
    - destruct (interviewer env); [discriminate | now split]. }
  destruct Hh as (Ha & Hp).
  pose proof (handlerOf_start_count env props w ClickCall) as Hc.
  cbn [isClickCall andb] in Hc. rewrite Hs in Hc.
  rewrite step_callStatus, step_awaitingStart, step_messages, step_trace.
  rewrite !count_app, Ha, Hp, Hc, handlerOf_no_feedback.
  cbn [statusAfter settlesStart finalFragments flat_map app].
  rewrite Hs, app_nil_r.
  destruct (depsChanged _ _).
  - destruct (completionEffect_not_finished props _ Hne) as (-> & ->).
    rewrite completionEffect_no_alert, completionEffect_no_start.
    repeat split; lia.
  - repeat split; cbn; lia.
Qed.

Lemma X16_call_without_configuration_witness :
  startIssued bareEnv normalProps = false
  /\ count isAlert (snd (step bareEnv normalProps mounted ClickCall)) = 1
  /\ callStatus (ui (fst (step bareEnv normalProps mounted ClickCall)))
     = INACTIVE.
Proof.
  split; [reflexivity|].
  pose proof (X16_call_without_configuration bareEnv normalProps mounted
                eq_refl) as (H1 & H2 & _).
  exact (conj H1 H2).
Defined.
